(** * The book/note service of [backend/book/api.go]

    A shallow embedding of the request handlers of the reading tracker
    and of the document store they talk to, followed by the properties
    of the book/note relationship maintenance, of the partial update
    and of the identifier validation.  [ListBook] and the [transaction]
    test route take part in none of them and are left out. *)

From Stdlib Require Import ZArith NArith String Ascii List Lia.
From stdpp Require Import base option list strings gmap fin_maps.

Set Warnings "-register-all".

Open Scope string_scope.
Open Scope Z_scope.
Open Scope list_scope.

(** ** Identifiers

    [primitive.ObjectID] is a 12-byte array.  It is read here as the
    96-bit big-endian number the twelve bytes spell; [NilObjectID] is
    the all-zero array. *)

Definition ObjectID : Type := N.

Definition NilObjectID : ObjectID := 0%N.

(** One hexadecimal digit, in either case, as [encoding/hex] reads it. *)
Definition fromHexChar (c : ascii) : option N :=
  let n := N_of_ascii c in
  if ((48 <=? n) && (n <=? 57))%N then Some (n - 48)%N
  else if ((97 <=? n) && (n <=? 102))%N then Some (n - 87)%N
  else if ((65 <=? n) && (n <=? 70))%N then Some (n - 55)%N
  else None.

Fixpoint hexDecode (s : string) (acc : N) : option N :=
  match s with
  | EmptyString => Some acc
  | String c s' =>
      match fromHexChar c with
      | Some d => hexDecode s' (16 * acc + d)%N
      | None => None
      end
  end.

(** [primitive.ObjectIDFromHex]: exactly 24 hexadecimal digits, anything
    else is [ErrInvalidHex] (here [None]). *)
Definition ObjectIDFromHex (s : string) : option ObjectID :=
  if (String.length s =? 24)%nat then hexDecode s 0%N else None.

(** ** Values

    The dynamic values the handlers pass around: what [encoding/json]
    puts behind an [interface{}], and what a stored document holds.
    [VNum] stands for the integral JSON numbers. *)

Definition Time : Type := Z.

Definition zeroTime : Time := 0.

Inductive Value : Type :=
| VNil
| VBool (b : bool)
| VNum (n : Z)
| VStr (s : string)
| VOid (o : ObjectID)
| VTime (t : Time)
| VArr (vs : list Value)
| VObj (kvs : list (string * Value)).

Definition Value_eq_dec : forall x y : Value, {x = y} + {x <> y}.
Proof.
  fix IH 1.
  decide equality.
  - apply Bool.bool_dec.
  - apply Z.eq_dec.
  - apply String.string_dec.
  - apply N.eq_dec.
  - apply Z.eq_dec.
  - apply List.list_eq_dec, IH.
  - apply List.list_eq_dec. decide equality. apply String.string_dec.
Defined.

#[global] Instance Value_eq_decision : EqDecision Value := Value_eq_dec.

(** A stored document: field name to value. *)
Abbreviation Doc := (gmap string Value).

(** ** The document store

    The two collections, and around them what the handlers can observe
    of the driver: whether a call comes back with an error ([faults],
    one flag per call still to come, [true] for a call the driver fails;
    no flag left means no failure), the calls made so far ([trace]) and
    the lines written with [log]. *)

Inductive Coll : Type := BookColl | NoteColl.

(** [bson.M{key: value}] and [bson.D{{Key: key, Value: value}}], the only
    filters the handlers build; a document matches when the field holds
    that very value. *)
Definition Filter : Type := string * Value.

Inductive Update : Type :=
| Push (field : string) (v : Value)
| Pull (field : string) (v : Value)
| SetFields (fs : list (string * Value)).

Inductive StoreCall : Type :=
| CallFindOne (c : Coll) (f : Filter)
| CallInsertOne (c : Coll) (d : Doc)
| CallUpdateOne (c : Coll) (f : Filter) (u : Update)
| CallFindOneAndUpdate (c : Coll) (f : Filter) (u : Update)
| CallDeleteOne (c : Coll) (f : Filter)
| CallDeleteMany (c : Coll) (f : Filter).

Inductive Err : Type :=
| ErrInvalidHex
| ErrNoDocuments
| ErrDriver (call : StoreCall)
| ErrWrite (call : StoreCall)
| Errorf (format : string) (args : list Value).

Inductive result (A : Type) : Type :=
| Ok (a : A)
| Fail (e : Err).

Arguments Ok {A} a.
Arguments Fail {A} e.

Record Service : Type := mkService {
  bookCollection : list Doc;
  noteCollection : list Doc;
  faults : list bool;
  trace : list StoreCall;
  logs : list string
}.

Definition M (A : Type) : Type := Service -> A * Service.

Definition ret {A : Type} (a : A) : M A := fun s => (a, s).

Definition bind {A B : Type} (m : M A) (k : A -> M B) : M B :=
  fun s => let (a, s') := m s in k a s'.

Notation "'let*' x ':=' m 'in' k" := (bind m (fun x => k))
  (at level 10, x pattern, m at level 100, k at level 200).

Definition collection (c : Coll) : M (list Doc) :=
  fun s => (match c with BookColl => bookCollection s | NoteColl => noteCollection s end, s).

Definition store (c : Coll) (l : list Doc) : M unit :=
  fun s =>
    (tt, match c with
         | BookColl => mkService l (noteCollection s) (faults s) (trace s) (logs s)
         | NoteColl => mkService (bookCollection s) l (faults s) (trace s) (logs s)
         end).

(** [log.Printf] and [log.Println]: the format text is kept. *)
Definition Printf (line : string) : M unit :=
  fun s => (tt, mkService (bookCollection s) (noteCollection s) (faults s) (trace s)
                          (logs s ++ [line])).

(** Every call goes through the driver: it is recorded, and the next
    fault flag says whether it fails. *)
Definition driver (call : StoreCall) : M bool :=
  fun s => (hd false (faults s),
            mkService (bookCollection s) (noteCollection s) (tl (faults s))
                      (trace s ++ [call]) (logs s)).

Definition Matches (f : Filter) (d : Doc) : Prop := d !! f.1 = Some f.2.

#[global] Instance Matches_dec f d : Decision (Matches f d).
Proof. unfold Matches. apply _. Defined.

(** The update operators the handlers use.  [$push] and [$pull] are
    rejected by the server on a field that is not an array; [$set] takes
    its keys as field names. *)
Definition applyUpdate (u : Update) (d : Doc) : option Doc :=
  match u with
  | Push k v =>
      match d !! k with
      | None => Some (<[k := VArr [v]]> d)
      | Some (VArr vs) => Some (<[k := VArr (vs ++ [v])]> d)
      | Some _ => None
      end
  | Pull k v =>
      match d !! k with
      | None => Some d
      | Some (VArr vs) => Some (<[k := VArr (filter (fun x => x <> v) vs)]> d)
      | Some _ => None
      end
  | SetFields fs => Some (foldl (fun acc kv => <[kv.1 := kv.2]> acc) d fs)
  end.

Arguments applyUpdate : simpl never.

Record UpdateResult : Type := mkUpdateResult {
  MatchedCount : Z;
  ModifiedCount : Z
}.

(** [Collection.FindOne]: the first matching document, [ErrNoDocuments]
    when there is none. *)
Definition FindOne (c : Coll) (f : Filter) : M (result Doc) :=
  let* failed := driver (CallFindOne c f) in
  if failed : bool then ret (Fail (ErrDriver (CallFindOne c f)))
  else
    let* l := collection c in
    match list_find (Matches f) l with
    | Some (_, d) => ret (Ok d)
    | None => ret (Fail ErrNoDocuments)
    end.

(** [Collection.InsertOne]. *)
Definition InsertOne (c : Coll) (d : Doc) : M (result unit) :=
  let* failed := driver (CallInsertOne c d) in
  if failed : bool then ret (Fail (ErrDriver (CallInsertOne c d)))
  else
    let* l := collection c in
    let* _ := store c (l ++ [d]) in
    ret (Ok tt).

(** [Collection.UpdateOne]: updates the first matching document; no
    match is not an error, the result then counts zero documents. *)
Definition UpdateOne (c : Coll) (f : Filter) (u : Update) : M (result UpdateResult) :=
  let* failed := driver (CallUpdateOne c f u) in
  if failed : bool then ret (Fail (ErrDriver (CallUpdateOne c f u)))
  else
    let* l := collection c in
    match list_find (Matches f) l with
    | None => ret (Ok (mkUpdateResult 0 0))
    | Some (i, d) =>
        match applyUpdate u d with
        | None => ret (Fail (ErrWrite (CallUpdateOne c f u)))
        | Some d' =>
            let* _ := store c (<[i := d']> l) in
            ret (Ok (mkUpdateResult 1 (if decide (d' = d) then 0 else 1)))
        end
    end.

(** [Collection.FindOneAndUpdate] with the default options: the
    document is returned as it was before the update. *)
Definition FindOneAndUpdate (c : Coll) (f : Filter) (u : Update) : M (result Doc) :=
  let* failed := driver (CallFindOneAndUpdate c f u) in
  if failed : bool then ret (Fail (ErrDriver (CallFindOneAndUpdate c f u)))
  else
    let* l := collection c in
    match list_find (Matches f) l with
    | None => ret (Fail ErrNoDocuments)
    | Some (i, d) =>
        match applyUpdate u d with
        | None => ret (Fail (ErrWrite (CallFindOneAndUpdate c f u)))
        | Some d' =>
            let* _ := store c (<[i := d']> l) in
            ret (Ok d)
        end
    end.

(** [Collection.DeleteOne]: removes the first matching document. *)
Definition DeleteOne (c : Coll) (f : Filter) : M (result Z) :=
  let* failed := driver (CallDeleteOne c f) in
  if failed : bool then ret (Fail (ErrDriver (CallDeleteOne c f)))
  else
    let* l := collection c in
    match list_find (Matches f) l with
    | None => ret (Ok 0)
    | Some (i, _) =>
        let* _ := store c (delete i l) in
        ret (Ok 1)
    end.

(** [Collection.DeleteMany]: removes every matching document. *)
Definition DeleteMany (c : Coll) (f : Filter) : M (result Z) :=
  let* failed := driver (CallDeleteMany c f) in
  if failed : bool then ret (Fail (ErrDriver (CallDeleteMany c f)))
  else
    let* l := collection c in
    let kept := filter (fun d => ~ Matches f d) l in
    let* _ := store c kept in
    ret (Ok (Z.of_nat (length l) - Z.of_nat (length kept))).

(** ** The entities ([models]) *)

Record Book : Type := mkBook {
  Book_ID : ObjectID;
  Title : string;
  Author : string;
  Status : Z;
  StartTime : Time;
  EndTime : Time;
  Notes : list ObjectID;
  Description : string
}.

(** [CreateTime] is the field [AddNote] assigns; the models file has
    its declaration, with the tag [createTime], in a comment. *)
Record Note : Type := mkNote {
  Note_ID : ObjectID;
  BookID : ObjectID;
  Content : string;
  ReplyTo : ObjectID;
  CreateTime : Time
}.

Definition zeroBook : Book := mkBook NilObjectID "" "" 0 zeroTime zeroTime [] "".

Definition zeroNote : Note := mkNote NilObjectID NilObjectID "" NilObjectID zeroTime.

(** The structs carry no [bson] tags, so a field is stored under its
    lower-cased name. *)
Definition bookDoc (b : Book) : Doc :=
  list_to_map
    [("id", VOid (Book_ID b)); ("title", VStr (Title b)); ("author", VStr (Author b));
     ("status", VNum (Status b)); ("starttime", VTime (StartTime b));
     ("endtime", VTime (EndTime b)); ("notes", VArr (VOid <$> Notes b));
     ("description", VStr (Description b))].

Definition noteDoc (n : Note) : Doc :=
  list_to_map
    [("id", VOid (Note_ID n)); ("bookid", VOid (BookID n)); ("content", VStr (Content n));
     ("replyto", VOid (ReplyTo n)); ("createtime", VTime (CreateTime n))].

Definition asOid (v : Value) : option ObjectID :=
  match v with VOid o => Some o | _ => None end.

Definition fieldOid (d : Doc) (k : string) (old : ObjectID) : ObjectID :=
  match d !! k with Some (VOid o) => o | _ => old end.

Definition fieldStr (d : Doc) (k : string) (old : string) : string :=
  match d !! k with Some (VStr x) => x | _ => old end.

Definition fieldNum (d : Doc) (k : string) (old : Z) : Z :=
  match d !! k with Some (VNum x) => x | _ => old end.

Definition fieldTime (d : Doc) (k : string) (old : Time) : Time :=
  match d !! k with Some (VTime x) => x | _ => old end.

Definition fieldOids (d : Doc) (k : string) (old : list ObjectID) : list ObjectID :=
  match d !! k with
  | Some (VArr vs) => match mapM asOid vs with Some l => l | None => old end
  | _ => old
  end.

(** [SingleResult.Decode]: on an error result the target is left as it
    is; otherwise each field is read from the entry of its name, and an
    entry that is missing or of another type leaves the field as it is. *)
Definition Decode_Book (res : result Doc) (into : Book) : Book :=
  match res with
  | Fail _ => into
  | Ok d =>
      mkBook (fieldOid d "id" (Book_ID into)) (fieldStr d "title" (Title into))
             (fieldStr d "author" (Author into)) (fieldNum d "status" (Status into))
             (fieldTime d "starttime" (StartTime into)) (fieldTime d "endtime" (EndTime into))
             (fieldOids d "notes" (Notes into)) (fieldStr d "description" (Description into))
  end.

Definition Decode_Note (res : result Doc) (into : Note) : Note :=
  match res with
  | Fail _ => into
  | Ok d =>
      mkNote (fieldOid d "id" (Note_ID into)) (fieldOid d "bookid" (BookID into))
             (fieldStr d "content" (Content into)) (fieldOid d "replyto" (ReplyTo into))
             (fieldTime d "createtime" (CreateTime into))
  end.

(** ** Requests and responses *)

(** What a handler reads from [gin.Context]: path parameters, query
    parameters, form values, and the body, which is either a JSON value
    or ([None]) bytes that are not JSON. *)
Record Context : Type := mkContext {
  params : gmap string string;
  queries : gmap string string;
  forms : gmap string string;
  Body : option Value
}.

Definition Param (c : Context) (key : string) : string := default "" (params c !! key).

Definition Query (c : Context) (key : string) : string := default "" (queries c !! key).

Definition PostForm (c : Context) (key : string) : string := default "" (forms c !! key).

Inductive Data : Type :=
| DataBook (b : Book)
| DataNote (n : Note)
| DataNotes (ns : list Note)
| DataID (o : ObjectID)
| DataCount (n : Z)
| DataDoc (d : Doc).

(** [util.ResponseSuccess] and [util.ResponseError]: the envelope a
    handler leaves in the context. *)
Inductive Response : Type :=
| ResponseSuccess (data : Data)
| ResponseError (err : Err).

(** ** Binding a JSON body ([ShouldBindJSON])

    [encoding/json] on a struct: the members are taken in the order of
    the body; a member of the wrong JSON type is skipped and the error
    kept for the end; an error from a field's own unmarshaller
    ([ObjectID], [time.Time]) ends the decoding there.  [null] leaves a
    field as it is.  Member names are matched exactly, and identifiers
    are read in their canonical text. *)

Inductive FieldResult (A : Type) : Type :=
| FieldSet (a : A)
| FieldTypeError
| FieldAbort.

Arguments FieldSet {A} a.
Arguments FieldTypeError {A}.
Arguments FieldAbort {A}.

Definition fieldMap {A B : Type} (f : A -> B) (r : FieldResult A) : FieldResult B :=
  match r with
  | FieldSet a => FieldSet (f a)
  | FieldTypeError => FieldTypeError
  | FieldAbort => FieldAbort
  end.

Definition jsonString (v : Value) (old : string) : FieldResult string :=
  match v with
  | VStr x => FieldSet x
  | VNil => FieldSet old
  | _ => FieldTypeError
  end.

Definition jsonInt (v : Value) (old : Z) : FieldResult Z :=
  match v with
  | VNum x => FieldSet x
  | VNil => FieldSet old
  | _ => FieldTypeError
  end.

Definition jsonObjectID (v : Value) (old : ObjectID) : FieldResult ObjectID :=
  match v with
  | VNil => FieldSet old
  | VStr x => match ObjectIDFromHex x with Some o => FieldSet o | None => FieldAbort end
  | _ => FieldAbort
  end.

Fixpoint jsonObjectIDs (vs : list Value) : FieldResult (list ObjectID) :=
  match vs with
  | [] => FieldSet []
  | v :: rest =>
      match jsonObjectID v NilObjectID with
      | FieldSet o => fieldMap (cons o) (jsonObjectIDs rest)
      | _ => FieldAbort
      end
  end.

Definition jsonObjectIDSlice (v : Value) (old : list ObjectID) : FieldResult (list ObjectID) :=
  match v with
  | VNil => FieldSet []
  | VArr vs => jsonObjectIDs vs
  | _ => FieldTypeError
  end.

Fixpoint bindMembers {A : Type} (member : string -> Value -> A -> FieldResult A)
    (kvs : list (string * Value)) (a : A) (err : bool) : A * bool :=
  match kvs with
  | [] => (a, err)
  | (k, v) :: rest =>
      match member k v a with
      | FieldSet a' => bindMembers member rest a' err
      | FieldTypeError => bindMembers member rest a true
      | FieldAbort => (a, true)
      end
  end.

(** The result is the target after the call and whether an error was
    returned. *)
Definition bindStruct {A : Type} (member : string -> Value -> A -> FieldResult A)
    (body : option Value) (a : A) : A * bool :=
  match body with
  | None => (a, true)
  | Some VNil => (a, false)
  | Some (VObj kvs) => bindMembers member kvs a false
  | Some _ => (a, true)
  end.

(** Binding into a [map[string]interface{}]: every member is stored,
    a later one over an earlier one of the same name. *)
Definition ShouldBindJSON_fields (body : option Value) (fields : gmap string Value)
    : gmap string Value * bool :=
  match body with
  | None => (fields, true)
  | Some VNil => (∅, false)
  | Some (VObj kvs) => (foldl (fun acc kv => <[kv.1 := kv.2]> acc) fields kvs, false)
  | Some _ => (fields, true)
  end.

(** ** The helpers of the package that the handlers call *)

(** Modelled from the spec: [strIdToPrimitive], whose source is not part
    of the files at hand.  The spec has the [id] decoded by the
    identifier codec, and failing when the decoding fails; the code it
    replaced in [EditBook] shows the same: a string goes through
    [ObjectIDFromHex], anything else is an error. *)
Definition strIdToPrimitive (id : Value) : result ObjectID :=
  match id with
  | VStr str =>
      match ObjectIDFromHex str with
      | Some oid => Ok oid
      | None => Fail ErrInvalidHex
      end
  | _ => Fail (Errorf "Invalid id" [])
  end.

(** Modelled from the spec: [getBook], whose source is not part of the
    files at hand.  The spec has it load the book; it is read as the
    lookup [GetBook] itself makes. *)
Definition getBook (oid : ObjectID) : M Book :=
  let* res := FindOne BookColl ("id", VOid oid) in
  ret (Decode_Book res zeroBook).

(** Modelled from the spec: [deleteNote], whose source is not part of
    the files at hand.  The spec has it remove the note identifier from
    the notes sequence of the book, report whether that succeeded, and
    log a failure.  It is read as the counterpart of the [$push] in
    [AddNote]: one [$pull] on the book, which fails when the store
    returns an error. *)
Definition deleteNote (bookID noteID : ObjectID) : M bool :=
  let* r := UpdateOne BookColl ("id", VOid bookID) (Pull "notes" (VOid noteID)) in
  match r with
  | Fail _ =>
      let* _ := Printf "Could not remove note from book: %v" in
      ret false
  | Ok _ => ret true
  end.

(** ** The handlers *)

Definition withID (o : ObjectID) (n : Note) : Note :=
  mkNote o (BookID n) (Content n) (ReplyTo n) (CreateTime n).

Definition withBookID (o : ObjectID) (n : Note) : Note :=
  mkNote (Note_ID n) o (Content n) (ReplyTo n) (CreateTime n).

Definition withContent (x : string) (n : Note) : Note :=
  mkNote (Note_ID n) (BookID n) x (ReplyTo n) (CreateTime n).

Definition withReplyTo (o : ObjectID) (n : Note) : Note :=
  mkNote (Note_ID n) (BookID n) (Content n) o (CreateTime n).

Definition withCreateTime (t : Time) (n : Note) : Note :=
  mkNote (Note_ID n) (BookID n) (Content n) (ReplyTo n) t.

(** The fields of a partial update that go into [$set]: those whose
    value is not the empty string. *)
Definition updateFields (fields : gmap string Value) : list (string * Value) :=
  filter (fun kv => kv.2 <> VStr "") (map_to_list fields).

Section Handlers.

(** [time.Time]'s reading of a JSON string. *)
Variable parseTime : string -> option Time.

Definition jsonTime (v : Value) (old : Time) : FieldResult Time :=
  match v with
  | VNil => FieldSet old
  | VStr x => match parseTime x with Some t => FieldSet t | None => FieldAbort end
  | _ => FieldAbort
  end.

Definition bookMember (k : string) (v : Value) (b : Book) : FieldResult Book :=
  if decide (k = "id") then
    fieldMap (fun x => mkBook x (Title b) (Author b) (Status b) (StartTime b) (EndTime b)
                              (Notes b) (Description b)) (jsonObjectID v (Book_ID b))
  else if decide (k = "title") then
    fieldMap (fun x => mkBook (Book_ID b) x (Author b) (Status b) (StartTime b) (EndTime b)
                              (Notes b) (Description b)) (jsonString v (Title b))
  else if decide (k = "author") then
    fieldMap (fun x => mkBook (Book_ID b) (Title b) x (Status b) (StartTime b) (EndTime b)
                              (Notes b) (Description b)) (jsonString v (Author b))
  else if decide (k = "status") then
    fieldMap (fun x => mkBook (Book_ID b) (Title b) (Author b) x (StartTime b) (EndTime b)
                              (Notes b) (Description b)) (jsonInt v (Status b))
  else if decide (k = "startTime") then
    fieldMap (fun x => mkBook (Book_ID b) (Title b) (Author b) (Status b) x (EndTime b)
                              (Notes b) (Description b)) (jsonTime v (StartTime b))
  else if decide (k = "endTime") then
    fieldMap (fun x => mkBook (Book_ID b) (Title b) (Author b) (Status b) (StartTime b) x
                              (Notes b) (Description b)) (jsonTime v (EndTime b))
  else if decide (k = "notes") then
    fieldMap (fun x => mkBook (Book_ID b) (Title b) (Author b) (Status b) (StartTime b)
                              (EndTime b) x (Description b)) (jsonObjectIDSlice v (Notes b))
  else if decide (k = "description") then
    fieldMap (fun x => mkBook (Book_ID b) (Title b) (Author b) (Status b) (StartTime b)
                              (EndTime b) (Notes b) x) (jsonString v (Description b))
  else FieldSet b.

Definition noteMember (k : string) (v : Value) (n : Note) : FieldResult Note :=
  if decide (k = "id") then fieldMap (fun x => withID x n) (jsonObjectID v (Note_ID n))
  else if decide (k = "bookID") then fieldMap (fun x => withBookID x n) (jsonObjectID v (BookID n))
  else if decide (k = "content") then fieldMap (fun x => withContent x n) (jsonString v (Content n))
  else if decide (k = "replyTo") then fieldMap (fun x => withReplyTo x n) (jsonObjectID v (ReplyTo n))
  else if decide (k = "createTime") then
    fieldMap (fun x => withCreateTime x n) (jsonTime v (CreateTime n))
  else FieldSet n.

Definition ShouldBindJSON_Book (body : option Value) (b : Book) : Book * bool :=
  bindStruct bookMember body b.

Definition ShouldBindJSON_Note (body : option Value) (n : Note) : Note * bool :=
  bindStruct noteMember body n.

(** [GetBook]: GET /book/:bookid *)
Definition GetBook (c : Context) : M Response :=
  let id := Param c "bookid" in
  match ObjectIDFromHex id with
  | None =>
      let* _ := Printf "Invalid id" in
      ret (ResponseError ErrInvalidHex)
  | Some oid =>
      let* res := FindOne BookColl ("id", VOid oid) in
      let book := Decode_Book res zeroBook in
      if decide (Book_ID book = NilObjectID) then
        ret (ResponseError (Errorf "Book %v does not exist\n" [VStr id]))
      else ret (ResponseSuccess (DataBook book))
  end.

(** [AddBook]: POST /book; [newID] is what [primitive.NewObjectID]
    returns. *)
Definition AddBook (c : Context) (newID : ObjectID) : M Response :=
  let book := (ShouldBindJSON_Book (Body c) zeroBook).1 in
  let book := mkBook newID (Title book) (Author book) (Status book) (StartTime book)
                     (EndTime book) [] (Description book) in
  let* r := InsertOne BookColl (bookDoc book) in
  match r with
  | Fail err =>
      let* _ := Printf "Could not create Book: %v" in
      ret (ResponseError err)
  | Ok _ => ret (ResponseSuccess (DataID (Book_ID book)))
  end.

(** [DeleteBook]: DELETE /book *)
Definition DeleteBook (c : Context) : M Response :=
  let id := PostForm c "id" in
  match ObjectIDFromHex id with
  | None =>
      let* _ := Printf "Invalid id" in
      ret (ResponseError ErrInvalidHex)
  | Some oid =>
      let* r := DeleteMany NoteColl ("bookid", VOid oid) in
      match r with
      | Fail err =>
          let* _ := Printf "Could not delete book %v's notes.\nError: %v" in
          ret (ResponseError err)
      | Ok _ =>
          let* res := DeleteOne BookColl ("id", VOid oid) in
          match res with
          | Fail err =>
              let* _ := Printf "Could not delete book %v.\nError: %v" in
              ret (ResponseError err)
          | Ok DeletedCount => ret (ResponseSuccess (DataCount DeletedCount))
          end
      end
  end.

(** [EditBook]: POST /book/:bookid *)
Definition EditBook (c : Context) : M Response :=
  let fields := (ShouldBindJSON_fields (Body c) ∅).1 in
  match strIdToPrimitive (default VNil (fields !! "id")) with
  | Fail _ => ret (ResponseError (Errorf "Invalid id" []))
  | Ok oid =>
      let fields := <["id" := VOid oid]> fields in
      let* res := FindOneAndUpdate BookColl ("id", VOid oid)
                    (SetFields (updateFields fields)) in
      match res with
      | Fail ErrNoDocuments =>
          ret (ResponseError (Errorf "id %v does not match any book\n" [VOid oid]))
      | Fail err =>
          let* _ := Printf "Could not edit book %v.\nError: %v" in
          ret (ResponseError err)
      | Ok updatedDocument => ret (ResponseSuccess (DataDoc updatedDocument))
      end
  end.

Fixpoint findNotes (noteIDs : list ObjectID) : M (list Note) :=
  match noteIDs with
  | [] => ret []
  | noteID :: rest =>
      let* res := FindOne NoteColl ("id", VOid noteID) in
      let note := Decode_Note res zeroNote in
      let* notes := findNotes rest in
      ret (note :: notes)
  end.

(** [ListNoteByBook]: GET /note *)
Definition ListNoteByBook (c : Context) : M Response :=
  let id := Query c "bookid" in
  match ObjectIDFromHex id with
  | None =>
      let* _ := Printf "Invalid id" in
      ret (ResponseError ErrInvalidHex)
  | Some oid =>
      let* book := getBook oid in
      if decide (Book_ID book = NilObjectID) then
        ret (ResponseError (Errorf "Book %v does not exist\n" [VStr id]))
      else
        let* notes := findNotes (Notes book) in
        ret (ResponseSuccess (DataNotes notes))
  end.

(** [GetNote]: GET /note/:noteid *)
Definition GetNote (c : Context) : M Response :=
  let id := Param c "noteid" in
  match ObjectIDFromHex id with
  | None =>
      let* _ := Printf "Invalid id" in
      ret (ResponseError ErrInvalidHex)
  | Some oid =>
      let* res := FindOne NoteColl ("id", VOid oid) in
      let note := Decode_Note res zeroNote in
      if decide (Note_ID note = NilObjectID) then
        ret (ResponseError (Errorf "Book %v does not exist\n" [VStr id]))
      else ret (ResponseSuccess (DataNote note))
  end.

(** The note [AddNote] works with: the bound body, then the new
    identifier and the time of the call. *)
Definition newNote (c : Context) (newID : ObjectID) (now : Time) : Note :=
  withCreateTime now (withID newID (ShouldBindJSON_Note (Body c) zeroNote).1).

(** [AddNote]: POST /note; [newID] is what [primitive.NewObjectID]
    returns and [now] what [time.Now] returns. *)
Definition AddNote (c : Context) (newID : ObjectID) (now : Time) : M Response :=
  let note := newNote c newID now in
  let* r := UpdateOne BookColl ("id", VOid (BookID note))
              (Push "notes" (VOid (Note_ID note))) in
  match r with
  | Fail err =>
      let* _ := Printf "Could not append note to book: %v" in
      ret (ResponseError err)
  | Ok _ =>
      let* r := InsertOne NoteColl (noteDoc note) in
      match r with
      | Fail err =>
          let* _ := Printf "Could not create Note: %v" in
          let* deleteOK := deleteNote (BookID note) (Note_ID note) in
          let* _ := (if deleteOK : bool then Printf "Remove this note from book %v\n"
                     else ret tt) in
          ret (ResponseError err)
      | Ok _ => ret (ResponseSuccess (DataID (Note_ID note)))
      end
  end.

(** [DeleteNote]: DELETE /note *)
Definition DeleteNote (c : Context) : M Response :=
  let tempNote := (ShouldBindJSON_Note (Body c) zeroNote).1 in
  let* res := FindOne NoteColl ("id", VOid (Note_ID tempNote)) in
  let note := Decode_Note res zeroNote in
  let bookID := BookID note in
  let* isDeleted := deleteNote bookID (Note_ID tempNote) in
  if negb isDeleted then
    ret (ResponseError (Errorf "Cannot remove note %v from book %v\n"
                               [VOid (Note_ID tempNote); VOid bookID]))
  else
    let* r := DeleteOne NoteColl ("id", VOid (Note_ID tempNote)) in
    match r with
    | Fail err =>
        let* _ := Printf "Could not delete Note.\nError: %v" in
        ret (ResponseError err)
    | Ok DeletedCount => ret (ResponseSuccess (DataCount DeletedCount))
    end.

(** [EditNote]: POST /note/:noteid *)
Definition EditNote (c : Context) : M Response :=
  let fields := (ShouldBindJSON_fields (Body c) ∅).1 in
  match strIdToPrimitive (default VNil (fields !! "id")) with
  | Fail _ => ret (ResponseError (Errorf "Invalid id" []))
  | Ok oid =>
      let fields := <["id" := VOid oid]> fields in
      let* r := UpdateOne NoteColl ("id", VOid oid) (SetFields (updateFields fields)) in
      match r with
      | Fail err =>
          let* _ := Printf "Could not edit note %v.\nError: %v" in
          ret (ResponseError err)
      | Ok res => ret (ResponseSuccess (DataCount (ModifiedCount res)))
      end
  end.

End Handlers.

(** ** The vocabulary of the properties *)

(** Nothing of the store was touched between [s] and [s']: the
    collections are the same and no call was made. *)
Definition untouched (s s' : Service) : Prop :=
  bookCollection s' = bookCollection s /\ noteCollection s' = noteCollection s /\
  faults s' = faults s /\ trace s' = trace s.

(** The request was answered with an error and the store left alone. *)
Definition rejectedBeforeStore (r : Response * Service) (s : Service) : Prop :=
  (exists err, r.1 = ResponseError err) /\ untouched s r.2.

Definition rejectedWith (err : Err) (r : Response * Service) (s : Service) : Prop :=
  r.1 = ResponseError err /\ untouched s r.2.

(** The field map of an edit, as bound from the body. *)
Definition boundFields (c : Context) : gmap string Value :=
  (ShouldBindJSON_fields (Body c) ∅).1.

Definition coll (c : Coll) (s : Service) : list Doc :=
  match c with BookColl => bookCollection s | NoteColl => noteCollection s end.

Definition setColl (c : Coll) (l : list Doc) (s : Service) : Service :=
  match c with
  | BookColl => mkService l (noteCollection s) (faults s) (trace s) (logs s)
  | NoteColl => mkService (bookCollection s) l (faults s) (trace s) (logs s)
  end.

(** The state once the driver has taken a call. *)
Definition called (call : StoreCall) (s : Service) : Service :=
  mkService (bookCollection s) (noteCollection s) (tl (faults s)) (trace s ++ [call]) (logs s).

Definition logged (line : string) (s : Service) : Service :=
  mkService (bookCollection s) (noteCollection s) (faults s) (trace s) (logs s ++ [line]).

(** The next call is one the driver fails. *)
Definition failing (s : Service) : bool := hd false (faults s).

(** Calls are only ever added to the trace. *)
Definition extends (s s' : Service) : Prop := exists rest, trace s' = trace s ++ rest.

Definition monotone {A : Type} (m : M A) : Prop := forall s, extends s (m s).2.

Definition firstCall (s s' : Service) (call : StoreCall) : Prop :=
  exists rest, trace s' = trace s ++ call :: rest.

(** The same request with another body. *)
Definition withBody (body : option Value) (c : Context) : Context :=
  mkContext (params c) (queries c) (forms c) body.

(** The book [AddBook] inserts for a bound book [b]. *)
Definition newBook (b : Book) (newID : ObjectID) : Book :=
  mkBook newID (Title b) (Author b) (Status b) (StartTime b) (EndTime b) [] (Description b).

(** The notes sequence of a book document. *)
Definition docNotes (d : Doc) : list Value :=
  match d !! "notes" with Some (VArr vs) => vs | _ => [] end.

Definition setFields (fs : list (string * Value)) (d : Doc) : Doc :=
  foldl (fun acc kv => <[kv.1 := kv.2]> acc) d fs.

(** The document [d'] is [d] edited with [fields]: a field given as the
    empty string keeps its value, a field given any other value holds
    that value, a field not given keeps its value, and so does [id]. *)
Definition edited (fields : gmap string Value) (d d' : Doc) : Prop :=
  d' !! "id" = d !! "id" /\
  (forall k v, k <> "id" -> fields !! k = Some v -> v <> VStr "" -> d' !! k = Some v) /\
  (forall k, fields !! k = Some (VStr "") -> d' !! k = d !! k) /\
  (forall k, k <> "id" -> fields !! k = None -> d' !! k = d !! k).

(** Every entry of the notes sequence of a book is the identifier of a
    stored note whose [bookid] is the identifier of that book. *)
Definition integrity (s : Service) : Prop :=
  forall b v, b ∈ bookCollection s -> v ∈ docNotes b ->
    exists bid nid d,
      b !! "id" = Some (VOid bid) /\ v = VOid nid /\ d ∈ noteCollection s /\
      d !! "id" = Some (VOid nid) /\ d !! "bookid" = Some (VOid bid).

(** No two documents of a collection carry the same [id]. *)
Definition uniqueIds (l : list Doc) : Prop := NoDup ((fun d : Doc => d !! "id") <$> l).

Definition consistent (s : Service) : Prop :=
  integrity s /\ uniqueIds (bookCollection s) /\ uniqueIds (noteCollection s).

(** [o] is not the identifier of a stored note, as holds of what
    [primitive.NewObjectID] returns. *)
Definition fresh (o : ObjectID) (s : Service) : Prop :=
  forall d, d ∈ noteCollection s -> d !! "id" <> Some (VOid o).






(** ** Sample data *)

(** No timestamp is recognised: enough for bodies that carry none. *)
Definition noTime : string -> option Time := fun _ => None.

Definition idB1 : string := "0000000000000000000000b1".

Definition idN1 : string := "0000000000000000000000a7".

Definition B1 : ObjectID := 177%N.

Definition N1 : ObjectID := 167%N.

Definition dune : Book := mkBook B1 "Dune" "Herbert" 0 zeroTime zeroTime [] "".

Definition ch1 : Note := mkNote N1 B1 "ch1" NilObjectID 5.

Definition jsonBody (v : Value) : Context := mkContext ∅ ∅ ∅ (Some v).

Definition emptyStore : Service := mkService [] [] [] [] [].

(** One book and no note. *)
Definition oneBook : Service := mkService [bookDoc dune] [] [] [] [].

(** One book with its one note. *)
Definition bookWithNote : Service :=
  mkService [<["notes" := VArr [VOid N1]]> (bookDoc dune)] [noteDoc ch1] [] [] [].

Definition detachFails : Service :=
  mkService (bookCollection bookWithNote) (noteCollection bookWithNote) [false; true] [] [].

Definition insertFails (failed : bool) : Service :=
  mkService [bookDoc dune] [] [false; true; failed] [] [].





(** A request whose body is not JSON. *)
Definition notJSON : Context := mkContext ∅ ∅ ∅ None.

(** ** Listing books: the filter of [ListBook]

    [ListBook] reads three query values and keeps the non-empty ones as
    the entries of its filter; with no entry it asks for everything
    ([bson.M{}]).  The values are strings as they come from the query.
    Of the handler, the construction of the filter and the selection it
    asks of the store are embedded; the cursor it then reads is the
    driver's. *)

Definition listQuery (c : Context) : gmap string string :=
  {["title" := Query c "title"; "author" := Query c "author"; "status" := Query c "status"]}.

Definition listFilter (query : gmap string string) : list Filter :=
  (fun kv => (kv.1, VStr kv.2)) <$> filter (fun kv => kv.2 <> "") (map_to_list query).

(** A document is selected when it matches every entry. *)
Definition MatchesAll (f : list Filter) (d : Doc) : Prop :=
  Forall (fun kv => Matches kv d) f.

#[global] Instance MatchesAll_dec f d : Decision (MatchesAll f d).
Proof. unfold MatchesAll. apply _. Defined.

(** The documents [ListBook] asks for, in the order of the store. *)
Definition ListBook_selected (c : Context) (books : list Doc) : list Doc :=
  filter (MatchesAll (listFilter (listQuery c))) books.

(** The number of store calls made between [s] and [s']. *)
Definition calls (s s' : Service) : nat := (length (trace s') - length (trace s))%nat.

(** No document of the collection carries the identifier. *)
Definition unused (o : ObjectID) (l : list Doc) : Prop :=
  forall d, d ∈ l -> d !! "id" <> Some (VOid o).

(** A computation that leaves both collections as they are. *)
Definition readOnly {A : Type} (m : M A) : Prop :=
  forall s, bookCollection (m s).2 = bookCollection s /\
            noteCollection (m s).2 = noteCollection s.

(** The answer of [GetBook], [GetNote] and [ListNoteByBook] for what is
    not there. *)
Definition doesNotExist (id : string) : Response :=
  ResponseError (Errorf "Book %v does not exist\n" [VStr id]).

(** The identifiers of a collection, place by place. *)
Definition ids (l : list Doc) : list (option Value) := (fun d : Doc => d !! "id") <$> l.

Example ObjectIDFromHex_idB1 : ObjectIDFromHex idB1 = Some B1.
Proof. reflexivity. Qed.

Example ObjectIDFromHex_idN1 : ObjectIDFromHex idN1 = Some N1.
Proof. reflexivity. Qed.

Example ObjectIDFromHex_upper : ObjectIDFromHex "0000000000000000000000B1" = Some B1.
Proof. reflexivity. Qed.

Example ObjectIDFromHex_short : ObjectIDFromHex "5f01" = None.
Proof. reflexivity. Qed.

Example ObjectIDFromHex_not_hex : ObjectIDFromHex "0000000000000000000000g1" = None.
Proof. reflexivity. Qed.

(** The scenario of the spec: a book, a note on it, the note deleted. *)
Example scenario_create_then_delete :
  let c1 := jsonBody (VObj [("bookID", VStr idB1); ("content", VStr "ch1")]) in
  let c2 := jsonBody (VObj [("id", VStr idN1)]) in
  let created := AddNote noTime c1 N1 5 oneBook in
  let deleted := DeleteNote noTime c2 created.2 in
  created.1 = ResponseSuccess (DataID N1) /\
  bookCollection created.2 = bookCollection bookWithNote /\
  noteCollection created.2 = noteCollection bookWithNote /\
  deleted.1 = ResponseSuccess (DataCount 1) /\
  bookCollection deleted.2 = bookCollection oneBook /\
  noteCollection deleted.2 = [].
Proof. intros c1 c2 created deleted. repeat split; vm_compute; reflexivity. Qed.

(** ** Properties *)

(** *** Creating a note against a book that does not exist *)

(** C2: when no book matches the given bookID, the append does not fail:
    the note document is inserted and the new identifier is returned. *)
Theorem AddNote_unknown_book :
  let c := jsonBody (VObj [("bookID", VStr idB1); ("content", VStr "ch1")]) in
  AddNote noTime c N1 5 emptyStore =
    (ResponseSuccess (DataID N1),
     mkService [] [noteDoc ch1] []
       [CallUpdateOne BookColl ("id", VOid B1) (Push "notes" (VOid N1));
        CallInsertOne NoteColl (noteDoc ch1)] []).
Proof. vm_compute. reflexivity. Qed.

(** *** Deleting a note that does not exist *)

(** C5: when the identifier matches no note, the deletion does not stop
    at the lookup: the update of the book collection and the deletion
    are both issued, and the answer is a success with count zero. *)
Theorem DeleteNote_unknown_note :
  let c := jsonBody (VObj [("id", VStr idN1)]) in
  DeleteNote noTime c oneBook =
    (ResponseSuccess (DataCount 0),
     mkService [bookDoc dune] [] []
       [CallFindOne NoteColl ("id", VOid N1);
        CallUpdateOne BookColl ("id", VOid NilObjectID) (Pull "notes" (VOid N1));
        CallDeleteOne NoteColl ("id", VOid N1)] []).
Proof. vm_compute. reflexivity. Qed.

(** *** What an edit answers *)

(** C8: an edit of a note that matches no document answers with a
    success and the count zero, and an edit of a book answers with the
    document as it was before the update. *)
Theorem edit_results :
  (let c := jsonBody (VObj [("id", VStr idN1); ("content", VStr "new")]) in
   EditNote c oneBook =
     (ResponseSuccess (DataCount 0),
      mkService [bookDoc dune] [] []
        [CallUpdateOne NoteColl ("id", VOid N1)
           (SetFields (updateFields (<["id" := VOid N1]> {["content" := VStr "new"]})))] []))
  /\
  (let c := jsonBody (VObj [("id", VStr idB1); ("title", VStr "Dune Messiah")]) in
   (EditBook c oneBook).1 = ResponseSuccess (DataDoc (bookDoc dune)) /\
   bookCollection (EditBook c oneBook).2 = [<["title" := VStr "Dune Messiah"]> (bookDoc dune)]).
Proof. repeat split; vm_compute; reflexivity. Qed.

(** *** Identifier validation *)

Lemma rejectedWith_rejected err r s : rejectedWith err r s -> rejectedBeforeStore r s.
Proof. intros [H1 H2]. split; [eauto | done]. Qed.

Ltac run :=
  unfold bind, ret, driver, collection, store, Printf in *; simpl in *.

(** C6: an identifier that arrives in the body of a note deletion or of
    a note creation goes through no validation.  With "xyz", which is
    no identifier, the binding reports an error; the handlers drop it
    and go on to the store with the all-zero identifier.  The deletion
    issues its three calls and answers with a success; the creation
    stores a note whose [bookid] is the all-zero identifier and answers
    with the new identifier. *)
Theorem body_identifier_not_validated :
  ObjectIDFromHex "xyz" = None /\
  (let c := jsonBody (VObj [("id", VStr "xyz")]) in
   (ShouldBindJSON_Note noTime (Body c) zeroNote).2 = true /\
   DeleteNote noTime c bookWithNote =
     (ResponseSuccess (DataCount 0),
      mkService (bookCollection bookWithNote) (noteCollection bookWithNote) []
        [CallFindOne NoteColl ("id", VOid NilObjectID);
         CallUpdateOne BookColl ("id", VOid NilObjectID) (Pull "notes" (VOid NilObjectID));
         CallDeleteOne NoteColl ("id", VOid NilObjectID)] [])) /\
  (let c := jsonBody (VObj [("bookID", VStr "xyz"); ("content", VStr "ch1")]) in
   let stored := mkNote N1 NilObjectID "" NilObjectID 5 in
   (ShouldBindJSON_Note noTime (Body c) zeroNote).2 = true /\
   AddNote noTime c N1 5 oneBook =
     (ResponseSuccess (DataID N1),
      mkService [bookDoc dune] [noteDoc stored] []
        [CallUpdateOne BookColl ("id", VOid NilObjectID) (Push "notes" (VOid N1));
         CallInsertOne NoteColl (noteDoc stored)] [])).
Proof. repeat split; vm_compute; reflexivity. Qed.

(** The same, read against the store: the request is not rejected
    before the store is reached. *)
Lemma DeleteNote_malformed_id :
  let c := jsonBody (VObj [("id", VStr "xyz")]) in
  ObjectIDFromHex "xyz" = None /\
  (ShouldBindJSON_Note noTime (Body c) zeroNote).2 = true /\
  ~ rejectedBeforeStore (DeleteNote noTime c oneBook) oneBook.
Proof.
  split; [reflexivity |]. split; [reflexivity |].
  intros [[err H] _]. vm_compute in H. discriminate.
Qed.

(** The operations that decode the identifier themselves answer a
    malformed identifier with an error before any store access: get
    book, delete book, list notes by book and get note with
    [ErrInvalidHex], edit book and edit note with "Invalid id". *)
Theorem identifier_validation (c : Context) (s : Service) :
  (ObjectIDFromHex (Param c "bookid") = None ->
   rejectedWith ErrInvalidHex (GetBook c s) s) /\
  (ObjectIDFromHex (PostForm c "id") = None ->
   rejectedWith ErrInvalidHex (DeleteBook c s) s) /\
  (ObjectIDFromHex (Query c "bookid") = None ->
   rejectedWith ErrInvalidHex (ListNoteByBook c s) s) /\
  (ObjectIDFromHex (Param c "noteid") = None ->
   rejectedWith ErrInvalidHex (GetNote c s) s) /\
  (forall id, boundFields c !! "id" = Some (VStr id) -> ObjectIDFromHex id = None ->
   rejectedWith (Errorf "Invalid id" []) (EditBook c s) s /\
   rejectedWith (Errorf "Invalid id" []) (EditNote c s) s).
Proof.
  repeat split; try (unfold GetBook, DeleteBook, ListNoteByBook, GetNote;
                     rewrite H; reflexivity);
    unfold EditBook, EditNote; fold (boundFields c); rewrite H; simpl;
    unfold strIdToPrimitive; rewrite H0; reflexivity.
Qed.

Lemma identifier_validation_witness :
  let c := mkContext {["bookid" := "dune"; "noteid" := "ch1"]} {["bookid" := "b1"]}
                     {["id" := "12"]} (Some (VObj [("id", VStr "nope")])) in
  rejectedWith ErrInvalidHex (GetBook c oneBook) oneBook /\
  rejectedWith ErrInvalidHex (DeleteBook c oneBook) oneBook /\
  rejectedWith ErrInvalidHex (ListNoteByBook c oneBook) oneBook /\
  rejectedWith ErrInvalidHex (GetNote c oneBook) oneBook /\
  rejectedWith (Errorf "Invalid id" []) (EditBook c oneBook) oneBook /\
  rejectedWith (Errorf "Invalid id" []) (EditNote c oneBook) oneBook.
Proof.
  intros c.
  destruct (identifier_validation c oneBook) as (H1 & H2 & H3 & H4 & H5).
  split; [apply H1; reflexivity |].
  split; [apply H2; reflexivity |].
  split; [apply H3; reflexivity |].
  split; [apply H4; reflexivity |].
  apply (H5 "nope"); reflexivity.
Defined.

(** *** The store calls, step by step *)

Arguments FindOne : simpl never.
Arguments InsertOne : simpl never.
Arguments UpdateOne : simpl never.
Arguments FindOneAndUpdate : simpl never.
Arguments DeleteOne : simpl never.
Arguments DeleteMany : simpl never.
Arguments deleteNote : simpl never.
Arguments getBook : simpl never.

Lemma FindOne_run c f s :
  FindOne c f s =
    (if failing s then Fail (ErrDriver (CallFindOne c f))
     else match list_find (Matches f) (coll c s) with
          | Some (_, d) => Ok d
          | None => Fail ErrNoDocuments
          end,
     called (CallFindOne c f) s).
Proof.
  unfold FindOne, failing. run. destruct (hd false (faults s)); [reflexivity |].
  destruct c; simpl; destruct (list_find _ _) as [[? ?]|]; reflexivity.
Qed.

Lemma InsertOne_run c d s :
  InsertOne c d s =
    if failing s then (Fail (ErrDriver (CallInsertOne c d)), called (CallInsertOne c d) s)
    else (Ok tt, setColl c (coll c s ++ [d]) (called (CallInsertOne c d) s)).
Proof.
  unfold InsertOne, failing. run. destruct (hd false (faults s)); [reflexivity |].
  destruct c; reflexivity.
Qed.

Lemma UpdateOne_run c f u s :
  UpdateOne c f u s =
    let call := CallUpdateOne c f u in
    if failing s then (Fail (ErrDriver call), called call s)
    else match list_find (Matches f) (coll c s) with
         | None => (Ok (mkUpdateResult 0 0), called call s)
         | Some (i, d) =>
             match applyUpdate u d with
             | None => (Fail (ErrWrite call), called call s)
             | Some d' =>
                 (Ok (mkUpdateResult 1 (if decide (d' = d) then 0 else 1)),
                  setColl c (<[i := d']> (coll c s)) (called call s))
             end
         end.
Proof.
  unfold UpdateOne, failing. run. destruct (hd false (faults s)); [reflexivity |].
  destruct c; simpl; destruct (list_find _ _) as [[? ?]|]; try reflexivity;
    destruct (applyUpdate _ _); reflexivity.
Qed.

Lemma FindOneAndUpdate_run c f u s :
  FindOneAndUpdate c f u s =
    let call := CallFindOneAndUpdate c f u in
    if failing s then (Fail (ErrDriver call), called call s)
    else match list_find (Matches f) (coll c s) with
         | None => (Fail ErrNoDocuments, called call s)
         | Some (i, d) =>
             match applyUpdate u d with
             | None => (Fail (ErrWrite call), called call s)
             | Some d' => (Ok d, setColl c (<[i := d']> (coll c s)) (called call s))
             end
         end.
Proof.
  unfold FindOneAndUpdate, failing. run. destruct (hd false (faults s)); [reflexivity |].
  destruct c; simpl; destruct (list_find _ _) as [[? ?]|]; try reflexivity;
    destruct (applyUpdate _ _); reflexivity.
Qed.

Lemma DeleteOne_run c f s :
  DeleteOne c f s =
    let call := CallDeleteOne c f in
    if failing s then (Fail (ErrDriver call), called call s)
    else match list_find (Matches f) (coll c s) with
         | None => (Ok 0, called call s)
         | Some (i, _) => (Ok 1, setColl c (delete i (coll c s)) (called call s))
         end.
Proof.
  unfold DeleteOne, failing. run. destruct (hd false (faults s)); [reflexivity |].
  destruct c; simpl; destruct (list_find _ _) as [[? ?]|]; reflexivity.
Qed.

Lemma DeleteMany_run c f s :
  DeleteMany c f s =
    let call := CallDeleteMany c f in
    if failing s then (Fail (ErrDriver call), called call s)
    else
      let kept := filter (fun d => ~ Matches f d) (coll c s) in
      (Ok (Z.of_nat (length (coll c s)) - Z.of_nat (length kept)),
       setColl c kept (called call s)).
Proof.
  unfold DeleteMany, failing. run. destruct (hd false (faults s)); [reflexivity |].
  destruct c; reflexivity.
Qed.

Lemma deleteNote_run bookID noteID s :
  deleteNote bookID noteID s =
    let f := ("id", VOid bookID) in
    let call := CallUpdateOne BookColl f (Pull "notes" (VOid noteID)) in
    if failing s then (false, logged "Could not remove note from book: %v" (called call s))
    else match list_find (Matches f) (bookCollection s) with
         | None => (true, called call s)
         | Some (i, d) =>
             match applyUpdate (Pull "notes" (VOid noteID)) d with
             | None => (false, logged "Could not remove note from book: %v" (called call s))
             | Some d' =>
                 (true, setColl BookColl (<[i := d']> (bookCollection s)) (called call s))
             end
         end.
Proof.
  unfold deleteNote, bind. rewrite UpdateOne_run. simpl.
  destruct (failing s); [reflexivity |]. 
  destruct (list_find _ _) as [[? ?]|]; [| reflexivity].
  destruct (applyUpdate _ _); reflexivity.
Qed.

Ltac cases :=
  simpl;
  repeat (match goal with
          | |- context [failing ?s] => destruct (failing s) eqn:?
          | |- context [list_find ?P ?l] => destruct (list_find P l) as [[? ?]|] eqn:?
          | |- context [applyUpdate ?u ?d] => destruct (applyUpdate u d) eqn:?
          end; simpl).

Lemma extends_refl s : extends s s.
Proof. exists []. by rewrite app_nil_r. Qed.

Lemma extends_trans s1 s2 s3 : extends s1 s2 -> extends s2 s3 -> extends s1 s3.
Proof. intros [r1 H1] [r2 H2]. exists (r1 ++ r2). by rewrite H2, H1, app_assoc. Qed.

Lemma monotone_ret {A : Type} (a : A) : monotone (ret a).
Proof. intros s. apply extends_refl. Qed.

Lemma monotone_bind {A B : Type} (m : M A) (k : A -> M B) :
  monotone m -> (forall a, monotone (k a)) -> monotone (bind m k).
Proof.
  intros Hm Hk s. unfold bind. specialize (Hm s).
  destruct (m s) as [a s1] eqn:E. simpl in Hm.
  eapply extends_trans; [exact Hm | apply Hk].
Qed.

Lemma monotone_Printf line : monotone (Printf line).
Proof. intros s. exists []. simpl. by rewrite app_nil_r. Qed.

Lemma monotone_driver call : monotone (driver call).
Proof. intros s. by exists [call]. Qed.

Lemma monotone_collection c : monotone (collection c).
Proof. intros s. apply extends_refl. Qed.

Lemma monotone_store c l : monotone (store c l).
Proof. intros s. exists []. destruct c; simpl; by rewrite app_nil_r. Qed.

Ltac mono :=
  repeat first
    [ apply monotone_ret | apply monotone_Printf | apply monotone_driver
    | apply monotone_collection | apply monotone_store
    | apply monotone_bind; [| intros ?]
    | match goal with
      | |- monotone (match ?x with _ => _ end) => destruct x
      end ].

Lemma monotone_FindOne c f : monotone (FindOne c f).
Proof. unfold FindOne. mono. Qed.

Lemma monotone_InsertOne c d : monotone (InsertOne c d).
Proof. unfold InsertOne. mono. Qed.

Lemma monotone_UpdateOne c f u : monotone (UpdateOne c f u).
Proof. unfold UpdateOne. mono. Qed.

Lemma monotone_DeleteOne c f : monotone (DeleteOne c f).
Proof. unfold DeleteOne. mono. Qed.

Lemma monotone_deleteNote b n : monotone (deleteNote b n).
Proof. unfold deleteNote. mono; apply monotone_UpdateOne. Qed.

Lemma firstCall_bind {A B : Type} (m : M A) (k : A -> M B) call s :
  trace (m s).2 = trace s ++ [call] -> (forall a, monotone (k a)) ->
  firstCall s (bind m k s).2 call.
Proof.
  intros Hm Hk. unfold bind. destruct (m s) as [a s1]. simpl in Hm.
  destruct (Hk a s1) as [rest Hrest]. exists rest.
  rewrite Hrest, Hm, <- app_assoc. reflexivity.
Qed.

Lemma FindOne_trace c f s : trace (FindOne c f s).2 = trace s ++ [CallFindOne c f].
Proof. rewrite FindOne_run. reflexivity. Qed.

Lemma InsertOne_trace c d s : trace (InsertOne c d s).2 = trace s ++ [CallInsertOne c d].
Proof. rewrite InsertOne_run. destruct (failing s), c; reflexivity. Qed.

Lemma UpdateOne_trace c f u s :
  trace (UpdateOne c f u s).2 = trace s ++ [CallUpdateOne c f u].
Proof.
  rewrite UpdateOne_run. simpl. destruct (failing s); [reflexivity |].
  destruct (list_find _ _) as [[? ?]|]; [| reflexivity].
  destruct (applyUpdate _ _); [destruct c |]; reflexivity.
Qed.

(** *** Binding errors *)

Section Binding.

Variable parseTime : string -> option Time.

Lemma AddBook_firstCall c newID s :
  firstCall s (AddBook parseTime c newID s).2
    (CallInsertOne BookColl
       (bookDoc (newBook (ShouldBindJSON_Book parseTime (Body c) zeroBook).1 newID))).
Proof.
  unfold AddBook. apply firstCall_bind; [apply InsertOne_trace |]. intros a. mono.
Qed.

Lemma AddNote_firstCall c newID now s :
  firstCall s (AddNote parseTime c newID now s).2
    (CallUpdateOne BookColl
       ("id", VOid (BookID (ShouldBindJSON_Note parseTime (Body c) zeroNote).1))
       (Push "notes" (VOid newID))).
Proof.
  unfold AddNote. apply firstCall_bind; [apply UpdateOne_trace |]. intros a.
  mono; first [apply monotone_InsertOne | apply monotone_deleteNote].
Qed.

Lemma DeleteNote_firstCall c s :
  firstCall s (DeleteNote parseTime c s).2
    (CallFindOne NoteColl ("id", VOid (Note_ID (ShouldBindJSON_Note parseTime (Body c) zeroNote).1))).
Proof.
  unfold DeleteNote. apply firstCall_bind; [apply FindOne_trace |]. intros a.
  mono; first [apply monotone_DeleteOne | apply monotone_deleteNote].
Qed.

(** C10: the error of [ShouldBindJSON] is discarded by the five handlers
    that bind a body: none of them looks at it.  Whatever the body,
    create book, create note and delete note go on to their first store
    call with the entity as the binding left it; a body that is not
    JSON leaves the entity zero-valued, so that the handler does exactly
    what it does for the empty object: deleting a note then looks up the
    all-zero identifier.  Edit book and edit note go on with the field
    map as the binding left it: when the binding fails the map is
    empty, it holds no [id], and the edit is answered with "Invalid id"
    before any store access. *)
Theorem binding_errors_discarded (c : Context) (s : Service) (newID : ObjectID) (now : Time) :
  firstCall s (AddBook parseTime c newID s).2
    (CallInsertOne BookColl
       (bookDoc (newBook (ShouldBindJSON_Book parseTime (Body c) zeroBook).1 newID))) /\
  firstCall s (AddNote parseTime c newID now s).2
    (CallUpdateOne BookColl
       ("id", VOid (BookID (ShouldBindJSON_Note parseTime (Body c) zeroNote).1))
       (Push "notes" (VOid newID))) /\
  firstCall s (DeleteNote parseTime c s).2
    (CallFindOne NoteColl
       ("id", VOid (Note_ID (ShouldBindJSON_Note parseTime (Body c) zeroNote).1))) /\
  ((ShouldBindJSON_fields (Body c) ∅).2 = true ->
   boundFields c = ∅ /\
   rejectedWith (Errorf "Invalid id" []) (EditBook c s) s /\
   rejectedWith (Errorf "Invalid id" []) (EditNote c s) s) /\
  (Body c = None ->
   ShouldBindJSON_Book parseTime (Body c) zeroBook = (zeroBook, true) /\
   ShouldBindJSON_Note parseTime (Body c) zeroNote = (zeroNote, true) /\
   ShouldBindJSON_fields (Body c) ∅ = (∅, true) /\
   AddBook parseTime c newID s = AddBook parseTime (withBody (Some (VObj [])) c) newID s /\
   AddNote parseTime c newID now s =
     AddNote parseTime (withBody (Some (VObj [])) c) newID now s /\
   DeleteNote parseTime c s = DeleteNote parseTime (withBody (Some (VObj [])) c) s /\
   EditBook c s = EditBook (withBody (Some (VObj [])) c) s /\
   EditNote c s = EditNote (withBody (Some (VObj [])) c) s /\
   firstCall s (DeleteNote parseTime c s).2
     (CallFindOne NoteColl ("id", VOid NilObjectID)) /\
   firstCall s (AddBook parseTime c newID s).2
     (CallInsertOne BookColl (bookDoc (newBook zeroBook newID)))).
Proof.
  split; [apply AddBook_firstCall |].
  split; [apply AddNote_firstCall |].
  split; [apply DeleteNote_firstCall |].
  split.
  { intros Hfail.
    assert (Hempty : boundFields c = ∅).
    { unfold boundFields in *. destruct (Body c) as [[]|]; simpl in *; done. }
    split; [exact Hempty |].
    unfold EditBook, EditNote. fold (boundFields c). rewrite Hempty, lookup_empty.
    split; repeat split; reflexivity. }
  intros Hbody.
  pose proof (DeleteNote_firstCall c s) as HD.
  pose proof (AddBook_firstCall c newID s) as HB.
  unfold AddBook, AddNote, newNote, DeleteNote, EditBook, EditNote in *.
  destruct c as [ps qs fs body]; simpl in *; subst body.
  repeat split; assumption.
Qed.

End Binding.

Lemma binding_errors_discarded_witness :
  DeleteNote noTime notJSON bookWithNote =
    DeleteNote noTime (withBody (Some (VObj [])) notJSON) bookWithNote /\
  firstCall bookWithNote (DeleteNote noTime notJSON bookWithNote).2
    (CallFindOne NoteColl ("id", VOid NilObjectID)) /\
  rejectedWith (Errorf "Invalid id" []) (EditBook notJSON bookWithNote) bookWithNote /\
  rejectedWith (Errorf "Invalid id" []) (EditNote notJSON bookWithNote) bookWithNote.
Proof.
  destruct (binding_errors_discarded noTime notJSON bookWithNote N1 5) as (_ & _ & _ & He & H).
  destruct (H eq_refl) as (_ & _ & _ & _ & _ & H6 & _ & _ & H9 & _).
  destruct (He eq_refl) as (_ & HB & HN).
  split; [exact H6 |]. split; [exact H9 |]. split; [exact HB | exact HN].
Defined.

(** The claim has a body that fails to bind never rejected.  An edit
    whose body is not JSON is rejected, and before the store is
    reached. *)
Lemma edit_unparseable_body_rejected :
  (ShouldBindJSON_fields (Body notJSON) ∅).2 = true /\
  rejectedBeforeStore (EditBook notJSON oneBook) oneBook /\
  rejectedBeforeStore (EditNote notJSON bookWithNote) bookWithNote.
Proof.
  split; [reflexivity |].
  split; (split; [exists (Errorf "Invalid id" []); reflexivity | repeat split; reflexivity]).
Qed.

(** A note deletion with a body that is not JSON: answered as a
    success. *)
Example DeleteNote_unparseable_body :
  (DeleteNote noTime (mkContext ∅ ∅ ∅ None) bookWithNote).1 = ResponseSuccess (DataCount 0).
Proof. vm_compute. reflexivity. Qed.

(** *** Deleting a note: detach before delete *)

Lemma list_find_insert (P : Doc -> Prop) `{!forall d, Decision (P d)} (l : list Doc) i d d' :
  list_find P l = Some (i, d) -> P d' -> list_find P (<[i := d']> l) = Some (i, d').
Proof.
  intros Hfind HP. apply list_find_Some in Hfind as (Hi & _ & Hbefore).
  apply list_find_Some. split; [| split; [exact HP |]].
  - apply list_lookup_insert_eq. by eapply lookup_lt_Some.
  - intros j y Hj Hlt. rewrite list_lookup_insert_ne in Hj by lia. by eapply Hbefore.
Qed.

Lemma applyUpdate_Pull_id d d' v k x :
  applyUpdate (Pull "notes" v) d = Some d' -> k <> "notes" -> d !! k = x -> d' !! k = x.
Proof.
  unfold applyUpdate. intros H Hk Hd.
  destruct (d !! "notes") as [[]|]; simplify_eq; try done.
  by rewrite lookup_insert_ne.
Qed.

Lemma applyUpdate_Pull_notes d d' v :
  applyUpdate (Pull "notes" v) d = Some d' -> v ∉ docNotes d'.
Proof.
  unfold applyUpdate, docNotes. intros H.
  destruct (d !! "notes") as [[]|] eqn:E; simplify_eq.
  - rewrite lookup_insert_eq. intros Hin. apply list_elem_of_filter in Hin as [Hne _]. done.
  - rewrite E. apply not_elem_of_nil.
Qed.

Section Detach.

Variable parseTime : string -> option Time.

(** The note document is deleted only once [deleteNote] has reported
    the identifier removed.  When the detachment fails, the
    answer is the "Cannot remove note" error, the note collection is as
    it was and no deletion is issued; when it succeeds, the book it
    addressed no longer lists the identifier, and only then is the one
    deletion issued, after the update of the book.  The book addressed
    is the one the located note names as its owner. *)
Theorem detach_before_delete (c : Context) (s : Service) :
  let id := Note_ID (ShouldBindJSON_Note parseTime (Body c) zeroNote).1 in
  let located := FindOne NoteColl ("id", VOid id) s in
  let bookID := BookID (Decode_Note located.1 zeroNote) in
  let detached := deleteNote bookID id located.2 in
  let final := DeleteNote parseTime c s in
  (detached.1 = false ->
   final = (ResponseError (Errorf "Cannot remove note %v from book %v\n"
                                  [VOid id; VOid bookID]), detached.2) /\
   noteCollection final.2 = noteCollection s /\
   trace final.2 = trace s ++ [CallFindOne NoteColl ("id", VOid id);
                               CallUpdateOne BookColl ("id", VOid bookID)
                                 (Pull "notes" (VOid id))]) /\
  (detached.1 = true ->
   (forall i b, list_find (Matches ("id", VOid bookID)) (bookCollection detached.2) = Some (i, b) ->
                VOid id ∉ docNotes b) /\
   bookCollection final.2 = bookCollection detached.2 /\
   trace final.2 = trace s ++ [CallFindOne NoteColl ("id", VOid id);
                               CallUpdateOne BookColl ("id", VOid bookID)
                                 (Pull "notes" (VOid id));
                               CallDeleteOne NoteColl ("id", VOid id)]) /\
  (noteCollection final.2 <> noteCollection s -> detached.1 = true) /\
  (forall k d0 bid,
     failing s = false ->
     list_find (Matches ("id", VOid id)) (noteCollection s) = Some (k, d0) ->
     d0 !! "bookid" = Some (VOid bid) -> bookID = bid).
Proof.
  intros id located bookID detached final.
  assert (Hfinal : final =
            if detached.1 then
              match DeleteOne NoteColl ("id", VOid id) detached.2 with
              | (Fail err, s3) =>
                  (ResponseError err, logged "Could not delete Note.\nError: %v" s3)
              | (Ok n, s3) => (ResponseSuccess (DataCount n), s3)
              end
            else (ResponseError (Errorf "Cannot remove note %v from book %v\n"
                                        [VOid id; VOid bookID]), detached.2)).
  { unfold final, DeleteNote, bind. fold id. fold located.
    destruct located as [res s1] eqn:E1. simpl in *. fold bookID. fold detached.
    destruct detached as [[] s2]; simpl; [| reflexivity].
    destruct (DeleteOne _ _ s2) as [[] ?]; reflexivity. }
  assert (Hnotes : noteCollection detached.2 = noteCollection s).
  { unfold detached. rewrite deleteNote_run. unfold located. rewrite FindOne_run. simpl.
    cases; reflexivity. }
  assert (Htrace : trace detached.2 =
            trace s ++ [CallFindOne NoteColl ("id", VOid id);
                        CallUpdateOne BookColl ("id", VOid bookID) (Pull "notes" (VOid id))]).
  { unfold detached. rewrite deleteNote_run. simpl.
    assert (trace located.2 = trace s ++ [CallFindOne NoteColl ("id", VOid id)]) as Hl
      by apply FindOne_trace.
    cases; rewrite Hl, <- app_assoc; reflexivity. }
  split; [| split; [| split]].
  - intros Hd. rewrite Hd in Hfinal. rewrite Hfinal. simpl. auto.
  - intros Hd. rewrite Hd in Hfinal. split; [| split].
    + intros i b. unfold detached in Hd |- *. rewrite deleteNote_run in Hd |- *.
      simpl in Hd |- *. destruct (failing located.2); [discriminate |].
      destruct (list_find _ (bookCollection located.2)) as [[j d]|] eqn:Hfind.
      * destruct (applyUpdate _ d) as [d'|] eqn:Hup; [| discriminate]. simpl.
        intros Hb.
        erewrite list_find_insert in Hb; [| exact Hfind |].
        -- inversion Hb; subst. by eapply applyUpdate_Pull_notes.
        -- apply list_find_Some in Hfind as (_ & Hm & _). unfold Matches in *. simpl in *.
           by eapply applyUpdate_Pull_id.
      * simpl. intros Hb. congruence.
    + rewrite Hfinal, DeleteOne_run. simpl.
      cases; reflexivity.
    + rewrite Hfinal, DeleteOne_run. simpl.
      cases; rewrite Htrace, <- app_assoc; reflexivity.
  - intros Hne. destruct detached.1; [reflexivity |].
    rewrite Hfinal in Hne. simpl in Hne. congruence.
  - intros k d0 bid Hok Hfind Hbid. unfold bookID, located.
    rewrite FindOne_run, Hok. simpl. rewrite Hfind. simpl.
    unfold fieldOid. by rewrite Hbid.
Qed.

End Detach.

Lemma detach_before_delete_witness :
  let c := jsonBody (VObj [("id", VStr idN1)]) in
  DeleteNote noTime c detachFails =
    (ResponseError (Errorf "Cannot remove note %v from book %v\n" [VOid N1; VOid B1]),
     mkService (bookCollection bookWithNote) [noteDoc ch1] []
       [CallFindOne NoteColl ("id", VOid N1);
        CallUpdateOne BookColl ("id", VOid B1) (Pull "notes" (VOid N1))]
       ["Could not remove note from book: %v"]).
Proof.
  intros c.
  destruct (detach_before_delete noTime c detachFails) as (H & _ & _ & _).
  destruct H as (H1 & _ & _); [vm_compute; reflexivity |].
  rewrite H1. vm_compute. reflexivity.
Defined.


(** *** Creating a note: compensation *)

Lemma filter_ne_app (v : Value) (vs : list Value) :
  v ∉ vs -> filter (fun x => x <> v) (vs ++ [v]) = vs.
Proof.
  intros Hv. rewrite filter_app, filter_cons_False, filter_nil, app_nil_r by (intros H; by apply H).
  induction vs as [| x vs IH]; [reflexivity |].
  apply not_elem_of_cons in Hv as [Hx Hvs].
  rewrite filter_cons_True by done. by rewrite IH.
Qed.

Lemma Matches_insert_notes f v d :
  f.1 <> "notes" -> Matches f d -> Matches f (<["notes" := v]> d).
Proof. unfold Matches. intros Hk Hm. by rewrite lookup_insert_ne. Qed.

Section Compensation.

Variable parseTime : string -> option Time.

(** C3: the identifier has been appended to the notes of the book and
    the insertion of the note then fails.  The handler calls
    [deleteNote] once and answers with the error of the insertion
    whether or not that call succeeds.  When it succeeds the collections
    are what they were before the request; when it fails the appended
    identifier stays in the book, a line is logged and nothing else is
    tried. *)
Theorem AddNote_compensation (c : Context) (newID : ObjectID) (now : Time) (s : Service)
    (i : nat) (b : Doc) (vs : list Value) (failed : bool) (rest : list bool) :
  let note := newNote parseTime c newID now in
  let push := CallUpdateOne BookColl ("id", VOid (BookID note)) (Push "notes" (VOid newID)) in
  let insert := CallInsertOne NoteColl (noteDoc note) in
  let pull := CallUpdateOne BookColl ("id", VOid (BookID note)) (Pull "notes" (VOid newID)) in
  let final := AddNote parseTime c newID now s in
  faults s = false :: true :: failed :: rest ->
  list_find (Matches ("id", VOid (BookID note))) (bookCollection s) = Some (i, b) ->
  b !! "notes" = Some (VArr vs) ->
  VOid newID ∉ vs ->
  final.1 = ResponseError (ErrDriver insert) /\
  noteCollection final.2 = noteCollection s /\
  trace final.2 = trace s ++ [push; insert; pull] /\
  (failed = false ->
   bookCollection final.2 = bookCollection s /\
   logs final.2 = logs s ++ ["Could not create Note: %v"; "Remove this note from book %v\n"]) /\
  (failed = true ->
   bookCollection final.2 =
     <[i := <["notes" := VArr (vs ++ [VOid newID])]> b]> (bookCollection s) /\
   logs final.2 = logs s ++ ["Could not create Note: %v";
                             "Could not remove note from book: %v"]).
Proof.
  intros note push insert pull final Hfaults Hfind Hnotes Hfresh.
  assert (Hid : Note_ID note = newID) by reflexivity.
  set (b' := <["notes" := VArr (vs ++ [VOid newID])]> b).
  assert (Hrun : final =
            (ResponseError (ErrDriver insert),
             if failed then
               mkService (<[i := b']> (bookCollection s)) (noteCollection s) rest
                 (trace s ++ [push; insert; pull])
                 (logs s ++ ["Could not create Note: %v";
                             "Could not remove note from book: %v"])
             else
               mkService (bookCollection s) (noteCollection s) rest
                 (trace s ++ [push; insert; pull])
                 (logs s ++ ["Could not create Note: %v";
                             "Remove this note from book %v\n"]))).
  { unfold final, AddNote. change (newNote parseTime c newID now) with note. cbv zeta.
    rewrite Hid. subst push insert pull. clear final. clearbody note. unfold bind.
    destruct s as [books notes fs tr lg]. simpl in *. subst fs.
    rewrite UpdateOne_run. unfold failing. simpl.
    rewrite Hfind. unfold applyUpdate at 1. rewrite Hnotes. fold b'.
    rewrite InsertOne_run. unfold failing. simpl.
    rewrite deleteNote_run. unfold failing. simpl.
    destruct failed; simpl.
    - unfold ret, logged, called. simpl. rewrite <- !app_assoc. reflexivity.
    - assert (Hfind' : list_find (Matches ("id", VOid (BookID note)))
                         (<[i := b']> books) = Some (i, b')).
      { eapply list_find_insert; [exact Hfind |].
        apply Matches_insert_notes; [done |].
        by apply list_find_Some in Hfind as (_ & Hm & _). }
      rewrite Hfind'. unfold applyUpdate, b'. rewrite lookup_insert_eq. simpl.
      rewrite filter_ne_app by done. rewrite insert_insert_eq.
      rewrite (insert_id b "notes") by done.
      rewrite list_insert_insert_eq.
      rewrite list_insert_id by (by apply list_find_Some in Hfind as (? & _)).
      unfold ret, Printf, setColl, called. simpl. rewrite <- !app_assoc. reflexivity. }
  rewrite Hrun. simpl.
  split; [reflexivity |].
  split; [by destruct failed |].
  split; [by destruct failed |].
  split; intros ->; done.
Qed.

End Compensation.

Lemma AddNote_compensation_witness :
  let c := jsonBody (VObj [("bookID", VStr idB1); ("content", VStr "ch1")]) in
  (AddNote noTime c N1 5 (insertFails false)).1 =
    ResponseError (ErrDriver (CallInsertOne NoteColl (noteDoc ch1))) /\
  bookCollection (AddNote noTime c N1 5 (insertFails false)).2 = [bookDoc dune] /\
  (AddNote noTime c N1 5 (insertFails true)).1 =
    ResponseError (ErrDriver (CallInsertOne NoteColl (noteDoc ch1))) /\
  bookCollection (AddNote noTime c N1 5 (insertFails true)).2 =
    [<["notes" := VArr [VOid N1]]> (bookDoc dune)].
Proof.
  intros c.
  assert (Hfresh : VOid N1 ∉ ([] : list Value)) by apply not_elem_of_nil.
  destruct (AddNote_compensation noTime c N1 5 (insertFails false) 0 (bookDoc dune) []
              false [] eq_refl eq_refl eq_refl Hfresh) as (H1 & _ & _ & H2 & _).
  destruct (AddNote_compensation noTime c N1 5 (insertFails true) 0 (bookDoc dune) []
              true [] eq_refl eq_refl eq_refl Hfresh) as (H3 & _ & _ & _ & H4).
  destruct (H2 eq_refl) as [H2' _]. destruct (H4 eq_refl) as [H4' _].
  split; [exact H1 |]. split; [exact H2' |]. split; [exact H3 |]. exact H4'.
Defined.

(** *** Partial update *)

Lemma setFields_notin fs d k : k ∉ fs.*1 -> setFields fs d !! k = d !! k.
Proof.
  unfold setFields. revert d. induction fs as [| [k' v'] fs IH]; intros d Hk; [reflexivity |].
  simpl in *. apply not_elem_of_cons in Hk as [Hne Hk].
  rewrite IH by done. by rewrite lookup_insert_ne.
Qed.

Lemma setFields_in fs d k v :
  NoDup fs.*1 -> (k, v) ∈ fs -> setFields fs d !! k = Some v.
Proof.
  unfold setFields. revert d. induction fs as [| [k' v'] fs IH]; intros d Hnd Hin.
  - by apply elem_of_nil in Hin.
  - simpl in *. apply NoDup_cons in Hnd as [Hk' Hnd].
    apply elem_of_cons in Hin as [Heq | Hin].
    + inversion Heq; subst. fold (setFields fs (<[k':=v']> d)).
      rewrite setFields_notin by done. apply lookup_insert_eq.
    + by apply IH.
Qed.

Lemma updateFields_NoDup fields : NoDup (updateFields fields).*1.
Proof.
  unfold updateFields. eapply sublist_NoDup; [apply (NoDup_fst_map_to_list fields) |].
  apply fmap_sublist, sublist_filter.
Qed.

Lemma updateFields_elem fields k v :
  (k, v) ∈ updateFields fields <-> v <> VStr "" /\ fields !! k = Some v.
Proof.
  unfold updateFields. rewrite list_elem_of_filter. simpl.
  by rewrite elem_of_map_to_list.
Qed.

(** What [$set] with the filtered fields leaves in a document. *)
Lemma setFields_updateFields fields d k :
  setFields (updateFields fields) d !! k =
    match fields !! k with
    | Some v => if decide (v = VStr "") then d !! k else Some v
    | None => d !! k
    end.
Proof.
  destruct (fields !! k) as [v|] eqn:Hk.
  - destruct (decide (v = VStr "")) as [-> | Hv].
    + apply setFields_notin. intros Hin. apply list_elem_of_fmap in Hin as ([k' v'] & -> & Hin).
      apply updateFields_elem in Hin as [Hne Hl]. simpl in *. congruence.
    + apply setFields_in; [apply updateFields_NoDup |]. by apply updateFields_elem.
  - apply setFields_notin. intros Hin. apply list_elem_of_fmap in Hin as ([k' v'] & -> & Hin).
    apply updateFields_elem in Hin as [Hne Hl]. simpl in *. congruence.
Qed.

Lemma strIdToPrimitive_Ok v oid :
  strIdToPrimitive v = Ok oid -> exists x, v = VStr x /\ ObjectIDFromHex x = Some oid.
Proof.
  unfold strIdToPrimitive. destruct v; try discriminate.
  destruct (ObjectIDFromHex s) eqn:E; [| discriminate]. intros [= ->]. eauto.
Qed.

Lemma edited_setFields fields oid d :
  strIdToPrimitive (default VNil (fields !! "id")) = Ok oid ->
  Matches ("id", VOid oid) d ->
  edited fields d (setFields (updateFields (<["id" := VOid oid]> fields)) d).
Proof.
  intros Hid Hm. unfold Matches in Hm. simpl in Hm.
  apply strIdToPrimitive_Ok in Hid as (x & Hx & Hhex).
  assert (Hne : x <> "") by (intros ->; discriminate).
  unfold edited. repeat split.
  - rewrite setFields_updateFields, lookup_insert_eq. by rewrite decide_False.
  - intros k v Hk Hf Hv. rewrite setFields_updateFields, lookup_insert_ne, Hf by done.
    by rewrite decide_False.
  - intros k Hf. rewrite setFields_updateFields.
    destruct (decide (k = "id")) as [-> | Hk].
    + rewrite Hf in Hx. simpl in Hx. congruence.
    + rewrite lookup_insert_ne, Hf by done. by rewrite decide_True.
  - intros k Hk Hf. by rewrite setFields_updateFields, lookup_insert_ne, Hf.
Qed.

(** An edit that is answered with a success has changed at most the
    first document of that identifier, and only as the field map says:
    the fields given as the empty string are as they were, the fields
    given another value hold exactly that value. *)
Theorem partial_update (c : Context) (s s' : Service) (data : Data) :
  let fields := boundFields c in
  (EditBook c s = (ResponseSuccess data, s') ->
   exists oid i d d',
     strIdToPrimitive (default VNil (fields !! "id")) = Ok oid /\
     list_find (Matches ("id", VOid oid)) (bookCollection s) = Some (i, d) /\
     bookCollection s' = <[i := d']> (bookCollection s) /\
     noteCollection s' = noteCollection s /\
     edited fields d d') /\
  (EditNote c s = (ResponseSuccess data, s') ->
   exists oid,
     strIdToPrimitive (default VNil (fields !! "id")) = Ok oid /\
     bookCollection s' = bookCollection s /\
     match list_find (Matches ("id", VOid oid)) (noteCollection s) with
     | None => noteCollection s' = noteCollection s
     | Some (i, d) =>
         exists d', noteCollection s' = <[i := d']> (noteCollection s) /\ edited fields d d'
     end).
Proof.
  intros fields. split.
  - unfold EditBook. fold (boundFields c). fold fields.
    destruct (strIdToPrimitive _) as [oid|] eqn:Hid; [| discriminate].
    unfold bind. rewrite FindOneAndUpdate_run. simpl.
    destruct (failing s); [discriminate |].
    destruct (list_find _ _) as [[i d]|] eqn:Hfind; [| discriminate].
    unfold applyUpdate. fold (setFields (updateFields (<["id":=VOid oid]> fields)) d).
    unfold ret. intros [= <- <-].
    exists oid, i, d, (setFields (updateFields (<["id":=VOid oid]> fields)) d).
    do 4 (split; [done |]).
    apply list_find_Some in Hfind as (_ & Hm & _).
    by apply edited_setFields.
  - unfold EditNote. fold (boundFields c). fold fields.
    destruct (strIdToPrimitive _) as [oid|] eqn:Hid; [| discriminate].
    unfold bind. rewrite UpdateOne_run. simpl.
    destruct (failing s); [discriminate |].
    destruct (list_find _ _) as [[i d]|] eqn:Hfind.
    + unfold applyUpdate. fold (setFields (updateFields (<["id":=VOid oid]> fields)) d).
      unfold ret. intros [= <- <-]. exists oid. rewrite Hfind. do 2 (split; [done |]).
      exists (setFields (updateFields (<["id":=VOid oid]> fields)) d). split; [done |].
      apply list_find_Some in Hfind as (_ & Hm & _).
      by apply edited_setFields.
    + unfold ret. intros [= <- <-]. exists oid. rewrite Hfind. by do 2 (split; [done |]).
Qed.

(** Only the empty string stands for "no change": a [null] or a zero
    is a value like any other and is written. *)
Example EditBook_null_and_zero :
  let c := jsonBody (VObj [("id", VStr idB1); ("description", VNil); ("status", VNum 0);
                           ("title", VStr "")]) in
  bookCollection (EditBook c oneBook).2 =
    [<["description" := VNil]> (bookDoc dune)].
Proof. vm_compute. reflexivity. Qed.

Lemma partial_update_witness :
  let c := jsonBody (VObj [("id", VStr idB1); ("title", VStr ""); ("author", VStr "F. Herbert")]) in
  exists d',
    bookCollection (EditBook c oneBook).2 = [d'] /\
    d' !! "title" = Some (VStr "Dune") /\
    d' !! "author" = Some (VStr "F. Herbert").
Proof.
  intros c.
  destruct (EditBook c oneBook) as [r s'] eqn:E.
  assert (Hr : r = ResponseSuccess (DataDoc (bookDoc dune))).
  { change r with (r, s').1. rewrite <- E. vm_compute. reflexivity. }
  subst r.
  destruct (partial_update c oneBook s' (DataDoc (bookDoc dune))) as [H _].
  destruct (H E) as (oid & i & d & d' & Hid & Hfind & Hbooks & _ & (_ & Hset & Hkeep & _)).
  assert (Hd : i = 0%nat /\ d = bookDoc dune).
  { assert (oid = B1) as -> by (vm_compute in Hid; by inversion Hid).
    assert (Hfirst : list_find (Matches ("id", VOid B1)) (bookCollection oneBook) =
                       Some (0%nat, bookDoc dune)) by (vm_compute; reflexivity).
    rewrite Hfirst in Hfind. by injection Hfind as <- <-. }
  destruct Hd as [-> ->].
  exists d'. split; [exact Hbooks |]. split.
  - rewrite (Hkeep "title"); reflexivity.
  - apply (Hset "author"); [done | reflexivity | done].
Defined.










(** *** Deleting a book *)

(** What a successful [DeleteBook] has done. *)
Lemma DeleteBook_success (c : Context) (s s' : Service) (oid : ObjectID) (data : Data) :
  ObjectIDFromHex (PostForm c "id") = Some oid ->
  DeleteBook c s = (ResponseSuccess data, s') ->
  trace s' = trace s ++ [CallDeleteMany NoteColl ("bookid", VOid oid);
                         CallDeleteOne BookColl ("id", VOid oid)] /\
  noteCollection s' = filter (fun d => ~ Matches ("bookid", VOid oid) d) (noteCollection s) /\
  match list_find (Matches ("id", VOid oid)) (bookCollection s) with
  | Some (i, _) => bookCollection s' = delete i (bookCollection s) /\ data = DataCount 1
  | None => bookCollection s' = bookCollection s /\ data = DataCount 0
  end.
Proof.
  intros Hhex. unfold DeleteBook. rewrite Hhex. unfold bind.
  rewrite DeleteMany_run. simpl. destruct (failing s); [discriminate |].
  rewrite DeleteOne_run. simpl.
  match goal with |- context [failing ?x] => destruct (failing x) end; [discriminate |].
  destruct (list_find _ _) as [[i d]|] eqn:Hfind; unfold ret; intros [= <- <-]; simpl;
    rewrite <- app_assoc; repeat split; eauto.
Qed.



(** *** Referential integrity *)

Lemma uniqueIds_lookup (l : list Doc) i j a b :
  uniqueIds l -> l !! i = Some a -> l !! j = Some b -> a !! "id" = b !! "id" -> i = j.
Proof.
  intros Hu Hi Hj Hid. eapply NoDup_lookup; [exact Hu | |].
  - rewrite list_lookup_fmap, Hi. reflexivity.
  - rewrite list_lookup_fmap, Hj. simpl. by rewrite Hid.
Qed.

Lemma uniqueIds_insert (l : list Doc) i d d' :
  uniqueIds l -> l !! i = Some d -> d' !! "id" = d !! "id" -> uniqueIds (<[i := d']> l).
Proof.
  unfold uniqueIds. intros Hu Hi Hid. rewrite list_fmap_insert, Hid.
  rewrite list_insert_id; [done |]. by rewrite list_lookup_fmap, Hi.
Qed.

Lemma uniqueIds_delete (l : list Doc) i : uniqueIds l -> uniqueIds (delete i l).
Proof.
  unfold uniqueIds. intros Hu. eapply sublist_NoDup; [exact Hu |].
  apply fmap_sublist, sublist_delete.
Qed.

Lemma uniqueIds_filter (P : Doc -> Prop) `{!forall d, Decision (P d)} (l : list Doc) :
  uniqueIds l -> uniqueIds (filter P l).
Proof.
  unfold uniqueIds. intros Hu. eapply sublist_NoDup; [exact Hu |].
  apply fmap_sublist, sublist_filter.
Qed.

Lemma uniqueIds_snoc (l : list Doc) d :
  uniqueIds l -> (forall x, x ∈ l -> x !! "id" <> d !! "id") -> uniqueIds (l ++ [d]).
Proof.
  unfold uniqueIds. intros Hu Hd. rewrite fmap_app. apply NoDup_app. split; [done |].
  split; [| apply NoDup_singleton].
  intros o Ho Ho'. apply list_elem_of_singleton in Ho'. subst o.
  apply list_elem_of_fmap in Ho as (x & Hx & Hin). by eapply Hd.
Qed.

Lemma elem_of_insert_inv (l : list Doc) i y x :
  x ∈ <[i := y]> l -> x = y \/ exists j, j <> i /\ l !! j = Some x.
Proof.
  intros Hx. apply list_elem_of_lookup in Hx as [j Hj].
  destruct (decide (j = i)) as [-> | Hne].
  - left. apply lookup_lt_Some in Hj as Hlt. rewrite length_insert in Hlt.
    rewrite list_lookup_insert_eq in Hj by done. congruence.
  - right. exists j. split; [done |]. by rewrite list_lookup_insert_ne in Hj.
Qed.

Lemma elem_of_delete_inv (l : list Doc) i x :
  x ∈ delete i l -> exists j, j <> i /\ l !! j = Some x.
Proof.
  intros Hx. apply list_elem_of_lookup in Hx as [j Hj].
  destruct (decide (j < i)%nat) as [Hlt | Hge].
  - exists j. split; [lia |]. by rewrite list_lookup_delete_lt in Hj.
  - exists (S j). split; [lia |]. by rewrite list_lookup_delete_ge in Hj by lia.
Qed.

Lemma elem_of_delete_ne (l : list Doc) i j x :
  j <> i -> l !! j = Some x -> x ∈ delete i l.
Proof.
  intros Hne Hj. apply list_elem_of_lookup.
  destruct (decide (j < i)%nat) as [Hlt | Hge].
  - exists j. by rewrite list_lookup_delete_lt.
  - exists (pred j). rewrite list_lookup_delete_ge by lia.
    replace (S (pred j)) with j by lia. done.
Qed.

Lemma applyUpdate_Push_notes d d' v :
  applyUpdate (Push "notes" v) d = Some d' ->
  d' = <["notes" := VArr (docNotes d ++ [v])]> d.
Proof.
  unfold applyUpdate, docNotes. destruct (d !! "notes") as [[]|]; intros [= <-]; reflexivity.
Qed.

Lemma applyUpdate_Pull_subset d d' v x :
  applyUpdate (Pull "notes" v) d = Some d' -> x ∈ docNotes d' -> x ∈ docNotes d.
Proof.
  unfold applyUpdate, docNotes. intros H.
  destruct (d !! "notes") as [[]|] eqn:E; simplify_eq.
  - rewrite lookup_insert_eq. intros Hin. by apply list_elem_of_filter in Hin as [_ ?].
  - by rewrite E.
Qed.

Lemma docNotes_insert_notes d vs : docNotes (<["notes" := VArr vs]> d) = vs.
Proof. unfold docNotes. by rewrite lookup_insert_eq. Qed.

Lemma noteDoc_id n : noteDoc n !! "id" = Some (VOid (Note_ID n)).
Proof. reflexivity. Qed.

Lemma noteDoc_bookid n : noteDoc n !! "bookid" = Some (VOid (BookID n)).
Proof. reflexivity. Qed.

Section Integrity.

Variable parseTime : string -> option Time.

(** What a successful [AddNote] leaves behind. *)
Lemma AddNote_success c newID now s s' data :
  AddNote parseTime c newID now s = (ResponseSuccess data, s') ->
  let note := newNote parseTime c newID now in
  data = DataID newID /\
  noteCollection s' = noteCollection s ++ [noteDoc note] /\
  match list_find (Matches ("id", VOid (BookID note))) (bookCollection s) with
  | None => bookCollection s' = bookCollection s
  | Some (i, b) =>
      bookCollection s' = <[i := <["notes" := VArr (docNotes b ++ [VOid newID])]> b]>
                            (bookCollection s)
  end.
Proof.
  intros H note. revert H. unfold AddNote. change (newNote parseTime c newID now) with note.
  cbv zeta. assert (Hid : Note_ID note = newID) by reflexivity. rewrite Hid.
  clearbody note. unfold bind. rewrite UpdateOne_run. simpl.
  destruct (failing s); [discriminate |].
  destruct (list_find _ _) as [[i b]|] eqn:Hfind.
  - destruct (applyUpdate _ b) as [b'|] eqn:Hup; [| discriminate].
    apply applyUpdate_Push_notes in Hup. subst b'.
    rewrite InsertOne_run. destruct (failing _).
    + rewrite deleteNote_run. simpl. cases; discriminate.
    + unfold ret. intros [= <- <-]. by repeat split.
  - rewrite InsertOne_run. destruct (failing _).
    + rewrite deleteNote_run. simpl. cases; discriminate.
    + unfold ret. intros [= <- <-]. by repeat split.
Qed.

Lemma AddNote_consistent c newID now s s' data :
  consistent s -> fresh newID s ->
  AddNote parseTime c newID now s = (ResponseSuccess data, s') ->
  consistent s'.
Proof.
  intros (Hint & Hub & Hun) Hfresh Hrun.
  apply AddNote_success in Hrun as (_ & Hnotes & Hbooks). cbv zeta in *.
  set (note := newNote parseTime c newID now) in *.
  assert (Hun' : uniqueIds (noteCollection s')).
  { rewrite Hnotes. apply uniqueIds_snoc; [done |]. intros x Hx. by apply Hfresh. }
  assert (Hkeep : forall b v, b ∈ bookCollection s -> v ∈ docNotes b ->
            exists bid nid d,
              b !! "id" = Some (VOid bid) /\ v = VOid nid /\ d ∈ noteCollection s' /\
              d !! "id" = Some (VOid nid) /\ d !! "bookid" = Some (VOid bid)).
  { intros b v Hb Hv. destruct (Hint b v Hb Hv) as (bid & nid & d & ? & ? & ? & ? & ?).
    exists bid, nid, d. rewrite Hnotes. repeat split; try done.
    apply elem_of_app. by left. }
  destruct (list_find _ _) as [[i b]|] eqn:Hfind.
  - apply list_find_Some in Hfind as (Hi & Hm & _). unfold Matches in Hm. simpl in Hm.
    split; [| split; [| done]].
    + intros b0 v Hb0 Hv. rewrite Hbooks in Hb0.
      apply elem_of_insert_inv in Hb0 as [-> | (j & _ & Hj)].
      * rewrite docNotes_insert_notes in Hv. apply elem_of_app in Hv as [Hv | Hv].
        -- destruct (Hkeep b v) as (bid & nid & d & ? & ? & ? & ? & ?);
             [by eapply list_elem_of_lookup_2 | done |].
           exists bid, nid, d. rewrite lookup_insert_ne by done. by repeat split.
        -- apply list_elem_of_singleton in Hv. subst v.
           exists (BookID note), newID, (noteDoc note). rewrite lookup_insert_ne by done.
           repeat split; try done. rewrite Hnotes. apply elem_of_app. right.
           by apply list_elem_of_singleton.
      * apply Hkeep; [by eapply list_elem_of_lookup_2 | done].
    + rewrite Hbooks. eapply uniqueIds_insert; [done | exact Hi |].
      by rewrite lookup_insert_ne.
  - split; [| split; [by rewrite Hbooks | done]].
    intros b0 v Hb0 Hv. rewrite Hbooks in Hb0. by apply Hkeep.
Qed.

(** What a successful [DeleteNote] leaves behind, when the lookup of the
    note was carried out by the store. *)
Lemma DeleteNote_success c s s' data :
  failing s = false ->
  DeleteNote parseTime c s = (ResponseSuccess data, s') ->
  let id := Note_ID (ShouldBindJSON_Note parseTime (Body c) zeroNote).1 in
  let found := list_find (Matches ("id", VOid id)) (noteCollection s) in
  let bookID := match found with
                | Some (_, d0) => fieldOid d0 "bookid" NilObjectID
                | None => NilObjectID
                end in
  noteCollection s' = match found with
                      | Some (k, _) => delete k (noteCollection s)
                      | None => noteCollection s
                      end /\
  match list_find (Matches ("id", VOid bookID)) (bookCollection s) with
  | None => bookCollection s' = bookCollection s
  | Some (j, bk) =>
      exists bk', applyUpdate (Pull "notes" (VOid id)) bk = Some bk' /\
                  bookCollection s' = <[j := bk']> (bookCollection s)
  end.
Proof.
  intros Hok H id found bookID. revert H. unfold DeleteNote. fold id. cbv zeta.
  unfold bind. rewrite FindOne_run, Hok. simpl. fold found.
  assert (HbookID : BookID (Decode_Note
                      match found with Some (_, d) => Ok d | None => Fail ErrNoDocuments end
                      zeroNote) = bookID).
  { unfold bookID. destruct found as [[k d0]|]; reflexivity. }
  rewrite HbookID. clear HbookID. clearbody bookID.
  rewrite deleteNote_run. simpl.
  set (s1 := called (CallFindOne NoteColl ("id", VOid id)) s).
  destruct (failing s1); [discriminate |].
  destruct (list_find _ (bookCollection s)) as [[j bk]|] eqn:Hbook.
  - destruct (applyUpdate _ bk) as [bk'|] eqn:Hup; [| discriminate]. simpl.
    rewrite DeleteOne_run. simpl. fold found.
    match goal with |- context [failing ?x] => destruct (failing x) end; [discriminate |].
    destruct found as [[k d0]|]; unfold ret; intros [= <- <-]; simpl; eauto.
  - simpl. rewrite DeleteOne_run. simpl. fold found.
    match goal with |- context [failing ?x] => destruct (failing x) end; [discriminate |].
    destruct found as [[k d0]|]; unfold ret; intros [= <- <-]; simpl; eauto.
Qed.

Lemma DeleteNote_consistent c s s' data :
  consistent s -> failing s = false ->
  DeleteNote parseTime c s = (ResponseSuccess data, s') ->
  consistent s'.
Proof.
  intros (Hint & Hub & Hun) Hok Hrun.
  apply DeleteNote_success in Hrun as (Hnotes & Hbooks); [| done]. cbv zeta in *.
  set (id := Note_ID (ShouldBindJSON_Note parseTime (Body c) zeroNote).1) in *.
  set (found := list_find (Matches ("id", VOid id)) (noteCollection s)) in *.
  (* every book of [s'] sits at the place of a book of [s] with the same
     identifier and no more notes; the book that was updated does not
     list [id] any more *)
  assert (Horigin : forall b0, b0 ∈ bookCollection s' ->
            exists j b, bookCollection s !! j = Some b /\ b0 !! "id" = b !! "id" /\
                        (forall v, v ∈ docNotes b0 -> v ∈ docNotes b) /\
                        (b0 = b \/ VOid id ∉ docNotes b0) /\
                        (b0 = b -> forall i bk, 
                           list_find (Matches ("id", VOid (match found with
                                | Some (_, d0) => fieldOid d0 "bookid" NilObjectID
                                | None => NilObjectID
                                end))) (bookCollection s) = Some (i, bk) -> VOid id ∈ docNotes b0 -> i <> j)).
  { intros b0 Hb0.
    destruct (list_find _ (bookCollection s)) as [[j bk]|] eqn:Hbook.
    - destruct Hbooks as (bk' & Hup & Hbooks). rewrite Hbooks in Hb0.
      apply list_find_Some in Hbook as (Hj & _ & _).
      apply elem_of_insert_inv in Hb0 as [-> | (j0 & Hne & Hj0)].
      + exists j, bk. split; [done |]. split; [by eapply applyUpdate_Pull_id |].
        split; [intros v; by eapply applyUpdate_Pull_subset |].
        split; [right; by eapply applyUpdate_Pull_notes |].
        intros _ i bk0 [= <- <-] Hin. exfalso. revert Hin. by eapply applyUpdate_Pull_notes.
      + exists j0, b0. repeat split; auto; intros _ i bk0 [= <- <-] _; auto.
    - rewrite Hbooks in Hb0. apply list_elem_of_lookup in Hb0 as [j0 Hj0].
      exists j0, b0. repeat split; auto; intros _ i bk0 [=]. }
  split; [| split].
  - intros b0 v Hb0 Hv.
    destruct (Horigin b0 Hb0) as (j & b & Hj & Hid & Hsub & Hcase & Hsame).
    destruct (Hint b v) as (bid & nid & d & Hbid & -> & Hd & Hdid & Hdbook);
      [by eapply list_elem_of_lookup_2 | by apply Hsub |].
    exists bid, nid, d. rewrite Hid. do 2 (split; [done |]). split; [| done].
    rewrite Hnotes. destruct found as [[k d0]|] eqn:Hfound; [| done].
    apply list_find_Some in Hfound as (Hk & Hm & _). unfold Matches in Hm. simpl in Hm.
    apply list_elem_of_lookup in Hd as [k' Hk'].
    destruct (decide (k' = k)) as [-> | Hne]; [| by eapply elem_of_delete_ne].
    exfalso. assert (d = d0) as -> by congruence.
    assert (nid = id) as -> by congruence.
    assert (Hb : fieldOid d0 "bookid" NilObjectID = bid) by (unfold fieldOid; by rewrite Hdbook).
    rewrite Hb in Hsame, Hbooks.
    destruct (list_find _ (bookCollection s)) as [[i bk]|] eqn:Hbook.
    + apply list_find_Some in Hbook as (Hi & Hmb & _). unfold Matches in Hmb. simpl in Hmb.
      assert (i = j) as -> by (eapply uniqueIds_lookup; [exact Hub | exact Hi | exact Hj | congruence]).
      destruct Hcase as [-> | Hnot]; [| done].
      by eapply Hsame.
    + apply list_find_None in Hbook. rewrite Forall_forall in Hbook.
      apply (Hbook b); [by eapply list_elem_of_lookup_2 | done].
  - destruct (list_find _ (bookCollection s)) as [[j bk]|] eqn:Hbook.
    + destruct Hbooks as (bk' & Hup & ->).
      apply list_find_Some in Hbook as (Hj & _ & _).
      eapply uniqueIds_insert; [done | exact Hj |]. by eapply applyUpdate_Pull_id.
    + by rewrite Hbooks.
  - rewrite Hnotes. destruct found as [[k d0]|]; [by apply uniqueIds_delete | done].
Qed.

(** What a successful [DeleteBook] leaves behind. *)
Lemma DeleteBook_consistent c s s' data :
  consistent s ->
  DeleteBook c s = (ResponseSuccess data, s') ->
  consistent s'.
Proof.
  intros (Hint & Hub & Hun) Hrun.
  destruct (ObjectIDFromHex (PostForm c "id")) as [oid|] eqn:Hhex;
    [| unfold DeleteBook in Hrun; rewrite Hhex in Hrun; discriminate].
  destruct (DeleteBook_success c s s' oid data Hhex Hrun) as (_ & Hnotes & Hbooks).
  assert (Hgone : forall b0, b0 ∈ bookCollection s' ->
            b0 ∈ bookCollection s /\ b0 !! "id" <> Some (VOid oid)).
  { intros b0 Hb0. destruct (list_find _ _) as [[i bk]|] eqn:Hfind.
    - destruct Hbooks as [Hbooks _]. rewrite Hbooks in Hb0.
      apply list_find_Some in Hfind as (Hi & Hm & _). unfold Matches in Hm. simpl in Hm.
      apply elem_of_delete_inv in Hb0 as (j & Hne & Hj).
      split; [by eapply list_elem_of_lookup_2 |].
      intros Hid. apply Hne. eapply uniqueIds_lookup; [exact Hub | exact Hj | exact Hi | congruence].
    - destruct Hbooks as [Hbooks _]. rewrite Hbooks in Hb0. split; [done |].
      apply list_find_None in Hfind. rewrite Forall_forall in Hfind. by apply Hfind. }
  split; [| split].
  - intros b0 v Hb0 Hv. destruct (Hgone b0 Hb0) as [Hin Hne].
    destruct (Hint b0 v Hin Hv) as (bid & nid & d & Hbid & -> & Hd & Hdid & Hdbook).
    exists bid, nid, d. do 2 (split; [done |]). split; [| done].
    rewrite Hnotes. apply list_elem_of_filter. split; [| done].
    unfold Matches. simpl. congruence.
  - destruct (list_find _ _) as [[i bk]|]; destruct Hbooks as [-> _];
      [by apply uniqueIds_delete | done].
  - rewrite Hnotes. by apply uniqueIds_filter.
Qed.

(** From a store that is consistent (every entry of a notes
    sequence names a stored note of that book, identifiers are not
    shared), a note creation that succeeds with a new identifier leaves
    that identifier exactly once, at the end of the notes of the book
    it was created against, and a note whose [bookid] is the book's
    identifier; and the store is consistent again after a successful
    note creation, after a successful note deletion whose lookup the
    store carried out, and after a successful book deletion. *)
Theorem referential_integrity (c : Context) (newID : ObjectID) (now : Time)
    (s s' : Service) (data : Data) :
  consistent s ->
  (fresh newID s ->
   AddNote parseTime c newID now s = (ResponseSuccess data, s') ->
   (let note := newNote parseTime c newID now in
    consistent s' /\
    data = DataID newID /\
    (exists n, n ∈ noteCollection s' /\ n !! "id" = Some (VOid newID) /\
               n !! "bookid" = Some (VOid (BookID note))) /\
    (forall b, b ∈ bookCollection s -> b !! "id" = Some (VOid (BookID note)) ->
       (VOid newID ∉ docNotes b) /\
       exists b', b' ∈ bookCollection s' /\ b' !! "id" = Some (VOid (BookID note)) /\
                  docNotes b' = docNotes b ++ [VOid newID]))) /\
  (failing s = false ->
   DeleteNote parseTime c s = (ResponseSuccess data, s') ->
   consistent s') /\
  (DeleteBook c s = (ResponseSuccess data, s') -> consistent s').
Proof.
  intros Hc. split; [| split].
  - intros Hfresh Hrun note.
    split; [by eapply AddNote_consistent |].
    destruct Hc as (Hint & Hub & Hun).
    apply AddNote_success in Hrun as (Hdata & Hnotes & Hbooks). cbv zeta in *. fold note in Hnotes, Hbooks.
    split; [done |]. split.
    { exists (noteDoc note). rewrite Hnotes. split; [| by split].
      apply elem_of_app. right. by apply list_elem_of_singleton. }
    intros b Hb Hid.
    assert (Hnew : VOid newID ∉ docNotes b).
    { intros Hin. destruct (Hint b _ Hb Hin) as (bid & nid & d & _ & [= <-] & Hd & Hdid & _).
      by apply (Hfresh d). }
    split; [done |].
    apply list_elem_of_lookup in Hb as [j Hj].
    destruct (list_find _ _) as [[i b1]|] eqn:Hfind.
    + apply list_find_Some in Hfind as (Hi & Hm & _).
      change (b1 !! "id" = Some (VOid (BookID note))) in Hm.
      assert (i = j) as -> by (eapply uniqueIds_lookup; [exact Hub | exact Hi | exact Hj | congruence]).
      assert (b1 = b) as -> by congruence.
      exists (<["notes" := VArr (docNotes b ++ [VOid newID])]> b).
      split; [| split].
      * rewrite Hbooks. apply list_elem_of_insert. by eapply lookup_lt_Some.
      * by rewrite lookup_insert_ne.
      * apply docNotes_insert_notes.
    + apply list_find_None in Hfind. rewrite Forall_forall in Hfind.
      exfalso. apply (Hfind b); [by eapply list_elem_of_lookup_2 | done].
  - intros Hok Hrun. by eapply DeleteNote_consistent.
  - intros Hrun. by eapply DeleteBook_consistent.
Qed.

End Integrity.

Lemma consistent_oneBook : consistent oneBook.
Proof.
  split; [| split].
  - intros b v Hb Hv. apply list_elem_of_singleton in Hb. subst b.
    by apply elem_of_nil in Hv.
  - apply NoDup_singleton.
  - apply NoDup_nil_2.
Qed.

Lemma consistent_bookWithNote : consistent bookWithNote.
Proof.
  split; [| split].
  - intros b v Hb Hv. apply list_elem_of_singleton in Hb. subst b.
    apply list_elem_of_singleton in Hv. subst v.
    exists B1, N1, (noteDoc ch1). repeat split. by apply list_elem_of_singleton.
  - apply NoDup_singleton.
  - apply NoDup_singleton.
Qed.

Lemma referential_integrity_witness :
  let c1 := jsonBody (VObj [("bookID", VStr idB1); ("content", VStr "ch1")]) in
  let c2 := jsonBody (VObj [("id", VStr idN1)]) in
  let c3 := mkContext ∅ ∅ {["id" := idB1]} None in
  consistent (AddNote noTime c1 N1 5 oneBook).2 /\
  consistent (DeleteNote noTime c2 bookWithNote).2 /\
  consistent (DeleteBook c3 bookWithNote).2.
Proof.
  intros c1 c2 c3.
  assert (Hfresh : fresh N1 oneBook) by (intros d Hd; by apply elem_of_nil in Hd).
  split; [| split].
  - destruct (referential_integrity noTime c1 N1 5 oneBook
                (AddNote noTime c1 N1 5 oneBook).2 (DataID N1) consistent_oneBook)
      as (H & _ & _).
    apply H; [exact Hfresh | vm_compute; reflexivity].
  - destruct (referential_integrity noTime c2 N1 5 bookWithNote
                (DeleteNote noTime c2 bookWithNote).2 (DataCount 1) consistent_bookWithNote)
      as (_ & H & _).
    apply H; [reflexivity | vm_compute; reflexivity].
  - destruct (referential_integrity noTime c3 N1 5 bookWithNote
                (DeleteBook c3 bookWithNote).2 (DataCount 1) consistent_bookWithNote)
      as (_ & _ & H).
    apply H. vm_compute. reflexivity.
Defined.

(** When the driver fails the lookup of [DeleteNote] and carries out the
    two calls that follow, the note is deleted and the book still lists
    it: the handler does not look at the outcome of the lookup. *)
Example DeleteNote_lookup_failure :
  let c := jsonBody (VObj [("id", VStr idN1)]) in
  let s := mkService (bookCollection bookWithNote) (noteCollection bookWithNote) [true] [] [] in
  DeleteNote noTime c s =
    (ResponseSuccess (DataCount 1),
     mkService (bookCollection bookWithNote) [] []
       [CallFindOne NoteColl ("id", VOid N1);
        CallUpdateOne BookColl ("id", VOid NilObjectID) (Pull "notes" (VOid N1));
        CallDeleteOne NoteColl ("id", VOid N1)] []).
Proof. vm_compute. reflexivity. Qed.


(** ** Further properties of the handlers *)

Arguments Decode_Book : simpl never.
Arguments Decode_Note : simpl never.

(** *** The filter of [ListBook] *)

Lemma listFilter_elem (q : gmap string string) k x :
  (k, x) ∈ listFilter q <-> exists v, x = VStr v /\ v <> "" /\ q !! k = Some v.
Proof.
  unfold listFilter. rewrite list_elem_of_fmap. split.
  - intros ([k' v] & [= -> ->] & Hin). apply list_elem_of_filter in Hin as [Hne Hin].
    apply elem_of_map_to_list in Hin. eauto.
  - intros (v & -> & Hne & Hq). exists (k, v). split; [done |].
    apply list_elem_of_filter. split; [done |]. by apply elem_of_map_to_list.
Qed.

Lemma listQuery_lookup c k v :
  listQuery c !! k = Some v <-> k ∈ ["title"; "author"; "status"] /\ v = Query c k.
Proof.
  assert (Hin : forall x, x ∈ ["title"; "author"; "status"] <->
                          x = "title" \/ x = "author" \/ x = "status").
  { intros x. rewrite !elem_of_cons, elem_of_nil. tauto. }
  rewrite Hin. unfold listQuery.
  destruct (decide (k = "title")) as [-> | H1].
  { rewrite lookup_insert_eq. split; [intros [= <-]; auto | intros [_ ->]; done]. }
  rewrite lookup_insert_ne by done.
  destruct (decide (k = "author")) as [-> | H2].
  { rewrite lookup_insert_eq. split; [intros [= <-]; auto | intros [_ ->]; done]. }
  rewrite lookup_insert_ne by done.
  destruct (decide (k = "status")) as [-> | H3].
  { rewrite lookup_singleton_eq. split; [intros [= <-]; auto | intros [_ ->]; done]. }
  rewrite lookup_singleton_ne by done. split; [done | intros [[? | [? | ?]] _]; done].
Qed.

Lemma ListBook_selected_elem (c : Context) (books : list Doc) (d : Doc) :
  d ∈ ListBook_selected c books <->
  d ∈ books /\
  forall k, k ∈ ["title"; "author"; "status"] -> Query c k <> "" ->
            d !! k = Some (VStr (Query c k)).
Proof.
  unfold ListBook_selected. rewrite list_elem_of_filter. unfold MatchesAll.
  rewrite Forall_forall. split.
  - intros [H Hin]. split; [done |]. intros k Hk Hne.
    apply (H (k, VStr (Query c k))). apply listFilter_elem.
    exists (Query c k). do 2 (split; [done |]). by apply listQuery_lookup.
  - intros [Hin H]. split; [| done]. intros [k x] Hx.
    apply listFilter_elem in Hx as (v & -> & Hne & Hq).
    apply listQuery_lookup in Hq as [Hk ->]. by apply H.
Qed.

Lemma filter_all {A : Type} (P : A -> Prop) `{!forall x, Decision (P x)} (l : list A) :
  (forall x, x ∈ l -> P x) -> filter P l = l.
Proof.
  induction l as [| x l IH]; intros Hall; [reflexivity |].
  rewrite filter_cons_True by (apply Hall; left).
  f_equal. apply IH. intros y Hy. apply Hall. by right.
Qed.

(** X1: [ListBook] asks for the books that hold, under each of [title],
    [author] and [status] given a non-empty value in the query, that
    very string; a criterion left empty does not count, and with all
    three empty every book is asked for, in the order of the store. *)
Theorem ListBook_selected_spec (c : Context) (books : list Doc) :
  (forall d, d ∈ ListBook_selected c books <->
     d ∈ books /\
     forall k, k ∈ ["title"; "author"; "status"] -> Query c k <> "" ->
               d !! k = Some (VStr (Query c k))) /\
  (Query c "title" = "" -> Query c "author" = "" -> Query c "status" = "" ->
   ListBook_selected c books = books).
Proof.
  split; [intros d; apply ListBook_selected_elem |].
  intros Ht Ha Hs. unfold ListBook_selected. apply filter_all.
  intros d Hd. apply Forall_forall. intros [k x] Hx.
  apply listFilter_elem in Hx as (v & -> & Hne & Hq).
  apply listQuery_lookup in Hq as [Hk ->]. exfalso.
  rewrite !elem_of_cons, elem_of_nil in Hk.
  destruct Hk as [-> | [-> | [-> | []]]]; congruence.
Qed.

Lemma ListBook_selected_spec_witness :
  let c := mkContext ∅ {["author" := "Herbert"]} ∅ None in
  let c0 := mkContext ∅ ∅ ∅ None in
  let other := bookDoc (mkBook 178%N "Emma" "Austen" 1 zeroTime zeroTime [] "") in
  (bookDoc dune ∈ ListBook_selected c [other; bookDoc dune]) /\
  (other ∉ ListBook_selected c [other; bookDoc dune]) /\
  ListBook_selected c0 [other; bookDoc dune] = [other; bookDoc dune].
Proof.
  intros c c0 other.
  destruct (ListBook_selected_spec c [other; bookDoc dune]) as [H _].
  destruct (ListBook_selected_spec c0 [other; bookDoc dune]) as [_ H0].
  assert (Hauthor : "author" ∈ ["title"; "author"; "status"])
    by (rewrite !elem_of_cons; auto).
  split; [| split].
  - apply H. split; [rewrite !elem_of_cons; auto |]. intros k Hk Hne.
    rewrite !elem_of_cons, elem_of_nil in Hk.
    destruct Hk as [-> | [-> | [-> | []]]];
      [exfalso; by apply Hne | vm_compute; reflexivity | exfalso; by apply Hne].
  - intros Hin. apply H in Hin as [_ Hin].
    specialize (Hin "author" Hauthor). vm_compute in Hin.
    assert (Hne : "Herbert" <> "") by discriminate.
    specialize (Hin Hne). discriminate Hin.
  - apply H0; reflexivity.
Defined.

(** X2: a book as [AddBook] stores it carries its status as a number,
    and the query gives a string: once a [status] is asked for, no such
    book is selected. *)
Theorem ListBook_status_never_matches (c : Context) (books : list Doc) (b : Book) :
  Query c "status" <> "" -> bookDoc b ∉ ListBook_selected c books.
Proof.
  intros Hs Hin. apply ListBook_selected_elem in Hin as [_ Hin].
  assert (Hk : "status" ∈ ["title"; "author"; "status"]) by (rewrite !elem_of_cons; auto).
  specialize (Hin "status" Hk Hs). destruct b. discriminate Hin.
Qed.

Lemma ListBook_status_never_matches_witness :
  let c := mkContext ∅ {["status" := "0"]} ∅ None in
  bookDoc dune ∉ ListBook_selected c [bookDoc dune].
Proof.
  intros c. apply (ListBook_status_never_matches c [bookDoc dune] dune). discriminate.
Defined.

(** *** Storing and decoding the entities *)

Lemma mapM_asOid (l : list ObjectID) : mapM asOid (VOid <$> l) = Some l.
Proof.
  induction l as [| o l IH]; [reflexivity |].
  rewrite fmap_cons. simpl. by rewrite IH.
Qed.

Lemma Decode_bookDoc (b into : Book) : Decode_Book (Ok (bookDoc b)) into = b.
Proof.
  destruct b as [o t a st t1 t2 ns d]. unfold Decode_Book. f_equal; try reflexivity.
  unfold fieldOids.
  change (bookDoc (mkBook o t a st t1 t2 ns d) !! "notes") with (Some (VArr (VOid <$> ns))).
  cbv beta iota. by rewrite mapM_asOid.
Qed.

Lemma Decode_noteDoc (n into : Note) : Decode_Note (Ok (noteDoc n)) into = n.
Proof. destruct n. reflexivity. Qed.

(** X3: what is stored of a book or of a note decodes to that very
    book or note, whatever the target held. *)
Theorem store_decode_round_trip (b into : Book) (n into' : Note) :
  Decode_Book (Ok (bookDoc b)) into = b /\
  Decode_Note (Ok (noteDoc n)) into' = n.
Proof. split; [apply Decode_bookDoc | apply Decode_noteDoc]. Qed.

(** *** Looking up a book or a note *)

Lemma readOnly_ret {A : Type} (a : A) : readOnly (ret a).
Proof. intros s. done. Qed.

Lemma readOnly_bind {A B : Type} (m : M A) (k : A -> M B) :
  readOnly m -> (forall a, readOnly (k a)) -> readOnly (bind m k).
Proof.
  intros Hm Hk s. unfold bind. destruct (Hm s) as [H1 H2].
  destruct (m s) as [a s1]. simpl in *. destruct (Hk a s1) as [H3 H4].
  split; congruence.
Qed.

Lemma readOnly_Printf line : readOnly (Printf line).
Proof. intros s. done. Qed.

Lemma readOnly_FindOne c f : readOnly (FindOne c f).
Proof. intros s. rewrite FindOne_run. done. Qed.

Lemma readOnly_getBook oid : readOnly (getBook oid).
Proof.
  unfold getBook. apply readOnly_bind; [apply readOnly_FindOne |].
  intros a. apply readOnly_ret.
Qed.

Lemma readOnly_findNotes noteIDs : readOnly (findNotes noteIDs).
Proof.
  induction noteIDs as [| noteID rest IH]; [apply readOnly_ret |].
  simpl. apply readOnly_bind; [apply readOnly_FindOne |]. intros res.
  apply readOnly_bind; [exact IH |]. intros notes. apply readOnly_ret.
Qed.

Ltac ro :=
  repeat first
    [ apply readOnly_ret | apply readOnly_Printf | apply readOnly_FindOne
    | apply readOnly_getBook | apply readOnly_findNotes
    | apply readOnly_bind; [| intros ?]
    | match goal with
      | |- readOnly (match ?x with _ => _ end) => destruct x
      end ].

(** X4: the three lookups never change a collection, whatever the
    request and whatever the driver does. *)
Theorem lookups_read_only (c : Context) :
  readOnly (GetBook c) /\ readOnly (GetNote c) /\ readOnly (ListNoteByBook c).
Proof.
  split; [| split].
  - unfold GetBook. ro.
  - unfold GetNote. ro.
  - unfold ListNoteByBook. ro.
Qed.

Lemma GetBook_run c s oid :
  ObjectIDFromHex (Param c "bookid") = Some oid ->
  GetBook c s =
    (let book := Decode_Book (FindOne BookColl ("id", VOid oid) s).1 zeroBook in
     if decide (Book_ID book = NilObjectID) then doesNotExist (Param c "bookid")
     else ResponseSuccess (DataBook book),
     called (CallFindOne BookColl ("id", VOid oid)) s).
Proof.
  intros H. unfold GetBook. rewrite H. unfold bind. rewrite FindOne_run. simpl.
  destruct (decide _); reflexivity.
Qed.

Lemma GetNote_run c s oid :
  ObjectIDFromHex (Param c "noteid") = Some oid ->
  GetNote c s =
    (let note := Decode_Note (FindOne NoteColl ("id", VOid oid) s).1 zeroNote in
     if decide (Note_ID note = NilObjectID) then doesNotExist (Param c "noteid")
     else ResponseSuccess (DataNote note),
     called (CallFindOne NoteColl ("id", VOid oid)) s).
Proof.
  intros H. unfold GetNote. rewrite H. unfold bind. rewrite FindOne_run. simpl.
  destruct (decide _); reflexivity.
Qed.

Lemma found_fieldOid (l : list Doc) oid i d old :
  list_find (Matches ("id", VOid oid)) l = Some (i, d) -> fieldOid d "id" old = oid.
Proof.
  intros H. apply list_find_Some in H as (_ & Hm & _). unfold Matches in Hm. simpl in Hm.
  unfold fieldOid. by rewrite Hm.
Qed.

(** X5: a lookup answered with a success carries the first document of
    the asked identifier, decoded; its identifier is the one asked for
    and is not the nil identifier. *)
Theorem lookup_success (c : Context) (s s' : Service) (data : Data) :
  (GetBook c s = (ResponseSuccess data, s') ->
   exists oid i d,
     ObjectIDFromHex (Param c "bookid") = Some oid /\ oid <> NilObjectID /\
     failing s = false /\
     list_find (Matches ("id", VOid oid)) (bookCollection s) = Some (i, d) /\
     data = DataBook (Decode_Book (Ok d) zeroBook) /\
     Book_ID (Decode_Book (Ok d) zeroBook) = oid) /\
  (GetNote c s = (ResponseSuccess data, s') ->
   exists oid i d,
     ObjectIDFromHex (Param c "noteid") = Some oid /\ oid <> NilObjectID /\
     failing s = false /\
     list_find (Matches ("id", VOid oid)) (noteCollection s) = Some (i, d) /\
     data = DataNote (Decode_Note (Ok d) zeroNote) /\
     Note_ID (Decode_Note (Ok d) zeroNote) = oid).
Proof.
  split.
  - destruct (ObjectIDFromHex (Param c "bookid")) as [oid|] eqn:Hhex;
      [| unfold GetBook; rewrite Hhex; discriminate].
    rewrite (GetBook_run c s oid Hhex), FindOne_run. simpl.
    destruct (failing s); [discriminate |].
    destruct (list_find _ _) as [[i d]|] eqn:Hfind; [| discriminate].
    simpl. pose proof (found_fieldOid _ _ _ _ NilObjectID Hfind) as Hid.
    destruct (decide _) as [Hnil | Hnil]; [discriminate |]. intros [= <- <-].
    exists oid, i, d. simpl in Hnil. rewrite Hid in Hnil. by repeat split.
  - destruct (ObjectIDFromHex (Param c "noteid")) as [oid|] eqn:Hhex;
      [| unfold GetNote; rewrite Hhex; discriminate].
    rewrite (GetNote_run c s oid Hhex), FindOne_run. simpl.
    destruct (failing s); [discriminate |].
    destruct (list_find _ _) as [[i d]|] eqn:Hfind; [| discriminate].
    simpl. pose proof (found_fieldOid _ _ _ _ NilObjectID Hfind) as Hid.
    destruct (decide _) as [Hnil | Hnil]; [discriminate |]. intros [= <- <-].
    exists oid, i, d. simpl in Hnil. rewrite Hid in Hnil. by repeat split.
Qed.

Lemma lookup_success_witness :
  let c := mkContext {["bookid" := idB1; "noteid" := idN1]} ∅ ∅ None in
  (GetBook c bookWithNote).1 = ResponseSuccess (DataBook (mkBook B1 "Dune" "Herbert" 0 0 0 [N1] "")) /\
  (GetNote c bookWithNote).1 = ResponseSuccess (DataNote ch1).
Proof.
  intros c.
  destruct (GetBook c bookWithNote) as [r1 s1] eqn:E1.
  destruct (GetNote c bookWithNote) as [r2 s2] eqn:E2.
  assert (H1 : r1 = ResponseSuccess (DataBook (mkBook B1 "Dune" "Herbert" 0 0 0 [N1] ""))).
  { change r1 with (r1, s1).1. rewrite <- E1. vm_compute. reflexivity. }
  assert (H2 : r2 = ResponseSuccess (DataNote ch1)).
  { change r2 with (r2, s2).1. rewrite <- E2. vm_compute. reflexivity. }
  subst r1 r2.
  destruct (lookup_success c bookWithNote s1
              (DataBook (mkBook B1 "Dune" "Herbert" 0 0 0 [N1] ""))) as [Hb _].
  destruct (lookup_success c bookWithNote s2 (DataNote ch1)) as [_ Hn].
  destruct (Hb E1) as (? & ? & ? & _). destruct (Hn E2) as (? & ? & ? & _).
  split; reflexivity.
Defined.

(** X6: for a well-formed identifier, a lookup answers "does not exist"
    exactly when the driver fails the call, when no document carries
    the identifier, or when the identifier is the nil identifier: the
    driver's error is not passed on. *)
Theorem lookup_does_not_exist (c : Context) (s : Service) (oid : ObjectID) :
  (ObjectIDFromHex (Param c "bookid") = Some oid ->
   ((GetBook c s).1 = doesNotExist (Param c "bookid") <->
    failing s = true \/ list_find (Matches ("id", VOid oid)) (bookCollection s) = None \/
    oid = NilObjectID)) /\
  (ObjectIDFromHex (Param c "noteid") = Some oid ->
   ((GetNote c s).1 = doesNotExist (Param c "noteid") <->
    failing s = true \/ list_find (Matches ("id", VOid oid)) (noteCollection s) = None \/
    oid = NilObjectID)).
Proof.
  split; intros Hhex.
  - rewrite (GetBook_run c s oid Hhex), FindOne_run. simpl.
    destruct (failing s); [simpl; split; auto |].
    destruct (list_find _ _) as [[i d]|] eqn:Hfind; [| simpl; split; auto].
    simpl. rewrite (found_fieldOid _ _ _ _ NilObjectID Hfind).
    destruct (decide _) as [Hnil | Hnil]; split; auto; try discriminate.
    intros [? | [? | ?]]; done.
  - rewrite (GetNote_run c s oid Hhex), FindOne_run. simpl.
    destruct (failing s); [simpl; split; auto |].
    destruct (list_find _ _) as [[i d]|] eqn:Hfind; [| simpl; split; auto].
    simpl. rewrite (found_fieldOid _ _ _ _ NilObjectID Hfind).
    destruct (decide _) as [Hnil | Hnil]; split; auto; try discriminate.
    intros [? | [? | ?]]; done.
Qed.

Lemma lookup_does_not_exist_witness :
  let c := mkContext {["bookid" := idB1]} ∅ ∅ None in
  let s := mkService (bookCollection oneBook) [] [true] [] [] in
  (GetBook c s).1 = doesNotExist idB1.
Proof.
  intros c s. destruct (lookup_does_not_exist c s B1) as [H _].
  apply (H eq_refl). by left.
Defined.

(** *** Creating a book *)

Lemma list_find_snoc (P : Doc -> Prop) `{!forall d, Decision (P d)} (l : list Doc) d :
  (forall x, x ∈ l -> ~ P x) -> P d -> list_find P (l ++ [d]) = Some (length l, d).
Proof.
  intros Hl Hd. apply list_find_Some. split; [| split; [done |]].
  - rewrite lookup_app_r by lia. by rewrite Nat.sub_diag.
  - intros j y Hj Hlt. rewrite lookup_app_l in Hj by done.
    apply Hl. by eapply list_elem_of_lookup_2.
Qed.

Lemma unused_find_None o (l : list Doc) :
  unused o l <-> list_find (Matches ("id", VOid o)) l = None.
Proof.
  rewrite list_find_None, Forall_forall. unfold unused, Matches. simpl. done.
Qed.

Lemma bookDoc_id b : bookDoc b !! "id" = Some (VOid (Book_ID b)).
Proof. reflexivity. Qed.

Lemma bookDoc_notes b : bookDoc b !! "notes" = Some (VArr (VOid <$> Notes b)).
Proof. reflexivity. Qed.

Section Books.

Variable parseTime : string -> option Time.

Lemma AddBook_run c newID s :
  let book := newBook (ShouldBindJSON_Book parseTime (Body c) zeroBook).1 newID in
  let call := CallInsertOne BookColl (bookDoc book) in
  AddBook parseTime c newID s =
    if failing s then
      (ResponseError (ErrDriver call), logged "Could not create Book: %v" (called call s))
    else
      (ResponseSuccess (DataID newID),
       setColl BookColl (bookCollection s ++ [bookDoc book]) (called call s)).
Proof.
  intros book call. unfold AddBook. fold (newBook (ShouldBindJSON_Book parseTime (Body c) zeroBook).1 newID).
  fold book. cbv zeta. unfold bind. rewrite InsertOne_run. fold call.
  destruct (failing s); reflexivity.
Qed.

(** X7: [AddBook] stores one document, at the end of the book
    collection, whose identifier is the new one and whose notes are
    empty whatever the body says; it answers with the new identifier.
    When the driver fails the insertion it answers with the driver's
    error and stores nothing.  The notes are never touched. *)
Theorem AddBook_effect (c : Context) (newID : ObjectID) (s : Service) :
  let final := AddBook parseTime c newID s in
  noteCollection final.2 = noteCollection s /\
  (failing s = false ->
   final.1 = ResponseSuccess (DataID newID) /\
   exists d, bookCollection final.2 = bookCollection s ++ [d] /\
             d !! "id" = Some (VOid newID) /\ d !! "notes" = Some (VArr []) /\
             Decode_Book (Ok d) zeroBook =
               newBook (ShouldBindJSON_Book parseTime (Body c) zeroBook).1 newID) /\
  (failing s = true ->
   (exists call, final.1 = ResponseError (ErrDriver call)) /\
   bookCollection final.2 = bookCollection s).
Proof.
  intros final. unfold final. rewrite AddBook_run. cbv zeta.
  destruct (failing s); simpl; (split; [done |]); split; try done.
  - intros _. split; [eauto | done].
  - intros _. split; [done |]. eexists. split; [reflexivity |].
    split; [apply bookDoc_id |]. split; [apply bookDoc_notes |]. apply Decode_bookDoc.
Qed.

(** X8: [AddBook] keeps the store consistent, whatever it answers, as
    long as the new identifier is not that of a stored book. *)
Theorem AddBook_consistent (c : Context) (newID : ObjectID) (s : Service) :
  consistent s -> unused newID (bookCollection s) ->
  consistent (AddBook parseTime c newID s).2.
Proof.
  intros (Hint & Hub & Hun) Hnew. rewrite AddBook_run. cbv zeta.
  destruct (failing s); simpl; [done |].
  split; [| split; [| done]].
  - intros b v Hb Hv. simpl in Hb. apply elem_of_app in Hb as [Hb | Hb]; [by apply Hint |].
    apply list_elem_of_singleton in Hb. subst b.
    unfold docNotes in Hv. rewrite bookDoc_notes in Hv. by apply elem_of_nil in Hv.
  - simpl. apply uniqueIds_snoc; [done |]. intros x Hx. rewrite bookDoc_id. by apply Hnew.
Qed.

(** X9: a book that [AddBook] has stored is what [GetBook] returns for
    its identifier: the bound body with the new identifier and no
    notes. *)
Theorem AddBook_then_GetBook (c c' : Context) (newID : ObjectID) (s s1 : Service) (data : Data) :
  newID <> NilObjectID -> unused newID (bookCollection s) ->
  AddBook parseTime c newID s = (ResponseSuccess data, s1) ->
  ObjectIDFromHex (Param c' "bookid") = Some newID ->
  failing s1 = false ->
  (GetBook c' s1).1 =
    ResponseSuccess (DataBook (newBook (ShouldBindJSON_Book parseTime (Body c) zeroBook).1 newID)).
Proof.
  intros Hnil Hnew Hadd Hhex Hok. rewrite AddBook_run in Hadd. cbv zeta in Hadd.
  destruct (failing s); [discriminate |]. injection Hadd as _ <-.
  set (book := newBook (ShouldBindJSON_Book parseTime (Body c) zeroBook).1 newID) in *.
  assert (Hfind : list_find (Matches ("id", VOid newID)) (bookCollection s ++ [bookDoc book]) =
                    Some (length (bookCollection s), bookDoc book)).
  { apply list_find_snoc; [intros x Hx; by apply Hnew | exact (bookDoc_id book)]. }
  rewrite (GetBook_run c' _ newID Hhex), FindOne_run, Hok. simpl.
  rewrite Hfind. simpl. rewrite Decode_bookDoc.
  destruct (decide _) as [Heq | _]; [done | reflexivity].
Qed.

End Books.

Lemma AddBook_effect_witness :
  let c := jsonBody (VObj [("id", VStr idN1); ("title", VStr "Emma"); ("notes", VArr [VStr idN1])]) in
  (AddBook noTime c B1 emptyStore).1 = ResponseSuccess (DataID B1) /\
  exists d, bookCollection (AddBook noTime c B1 emptyStore).2 = [d] /\
            d !! "id" = Some (VOid B1) /\ d !! "notes" = Some (VArr []) /\
            Decode_Book (Ok d) zeroBook = mkBook B1 "Emma" "" 0 zeroTime zeroTime [] "".
Proof.
  intros c. destruct (AddBook_effect noTime c B1 emptyStore) as (_ & H & _).
  destruct (H eq_refl) as (H1 & d & H2 & H3 & H4 & H5).
  split; [exact H1 |]. exists d. split; [exact H2 |]. split; [exact H3 |].
  split; [exact H4 |]. rewrite H5. vm_compute. reflexivity.
Defined.

Lemma AddBook_consistent_witness :
  consistent (AddBook noTime (jsonBody (VObj [("title", VStr "Emma")])) N1 oneBook).2.
Proof.
  apply AddBook_consistent; [apply consistent_oneBook |].
  intros d Hd. apply list_elem_of_singleton in Hd. subst d. discriminate.
Defined.

Lemma AddBook_then_GetBook_witness :
  let c := jsonBody (VObj [("title", VStr "Emma")]) in
  let c' := mkContext {["bookid" := idN1]} ∅ ∅ None in
  (GetBook c' (AddBook noTime c N1 oneBook).2).1 =
    ResponseSuccess (DataBook (mkBook N1 "Emma" "" 0 zeroTime zeroTime [] "")).
Proof.
  intros c c'.
  apply (AddBook_then_GetBook noTime c c' N1 oneBook _ (DataID N1)).
  - discriminate.
  - intros d Hd. apply list_elem_of_singleton in Hd. subst d. discriminate.
  - vm_compute. reflexivity.
  - reflexivity.
  - reflexivity.
Defined.

(** *** Lookups after a creation or a deletion *)

Lemma uniqueIds_elem_eq (l : list Doc) a b :
  uniqueIds l -> a ∈ l -> b ∈ l -> a !! "id" = b !! "id" -> a = b.
Proof.
  intros Hu Ha Hb Hid.
  apply list_elem_of_lookup in Ha as [i Hi]. apply list_elem_of_lookup in Hb as [j Hj].
  assert (i = j) as -> by (by eapply uniqueIds_lookup).
  congruence.
Qed.

Lemma unused_after_delete (l : list Doc) o k d :
  uniqueIds l -> list_find (Matches ("id", VOid o)) l = Some (k, d) -> unused o (delete k l).
Proof.
  intros Hu Hfind x Hx Hid. apply list_find_Some in Hfind as (Hk & Hm & _).
  unfold Matches in Hm. simpl in Hm.
  apply elem_of_delete_inv in Hx as (j & Hne & Hj).
  apply Hne. eapply uniqueIds_lookup; [exact Hu | exact Hj | exact Hk | congruence].
Qed.

Section Compositions.

Variable parseTime : string -> option Time.

(** X10: a note that [AddNote] has stored is what [GetNote] returns
    for its identifier: the bound body with the new identifier and the
    time of the creation. *)
Theorem AddNote_then_GetNote (c c' : Context) (newID : ObjectID) (now : Time)
    (s s1 : Service) (data : Data) :
  newID <> NilObjectID -> fresh newID s ->
  AddNote parseTime c newID now s = (ResponseSuccess data, s1) ->
  ObjectIDFromHex (Param c' "noteid") = Some newID ->
  failing s1 = false ->
  (GetNote c' s1).1 = ResponseSuccess (DataNote (newNote parseTime c newID now)).
Proof.
  intros Hnil Hfresh Hadd Hhex Hok.
  apply AddNote_success in Hadd as (_ & Hnotes & _). cbv zeta in Hnotes.
  set (note := newNote parseTime c newID now) in *.
  assert (Hfind : list_find (Matches ("id", VOid newID)) (noteCollection s1) =
                    Some (length (noteCollection s), noteDoc note)).
  { rewrite Hnotes. apply list_find_snoc; [intros x Hx; by apply Hfresh | exact (noteDoc_id note)]. }
  rewrite (GetNote_run c' _ newID Hhex), FindOne_run, Hok. simpl.
  rewrite Hfind. simpl. rewrite Decode_noteDoc.
  destruct (decide _) as [Heq | _]; [done | reflexivity].
Qed.

(** What a successful [DeleteNote] has done to the notes, whether or
    not the store carried out the lookup. *)
Lemma DeleteNote_success_notes c s s' data :
  DeleteNote parseTime c s = (ResponseSuccess data, s') ->
  let id := Note_ID (ShouldBindJSON_Note parseTime (Body c) zeroNote).1 in
  match list_find (Matches ("id", VOid id)) (noteCollection s) with
  | Some (k, _) => noteCollection s' = delete k (noteCollection s) /\ data = DataCount 1
  | None => noteCollection s' = noteCollection s /\ data = DataCount 0
  end.
Proof.
  intros H id. revert H. unfold DeleteNote. fold id. cbv zeta.
  unfold bind. rewrite FindOne_run. cbv zeta.
  generalize (BookID (Decode_Note
     (if failing s then Fail (ErrDriver (CallFindOne NoteColl ("id", VOid id)))
      else match list_find (Matches ("id", VOid id)) (coll NoteColl s) with
           | Some (_, d) => Ok d
           | None => Fail ErrNoDocuments
           end) zeroNote)).
  intros bookID. rewrite deleteNote_run. cbv zeta.
  set (s1 := called (CallFindOne NoteColl ("id", VOid id)) s).
  destruct (failing s1); [discriminate |].
  destruct (list_find _ (bookCollection s1)) as [[j bk]|].
  - destruct (applyUpdate _ bk) as [bk'|]; [| discriminate]. simpl.
    rewrite DeleteOne_run. simpl.
    match goal with |- context [failing ?x] => destruct (failing x) end; [discriminate |].
    destruct (list_find _ (noteCollection s)) as [[k d0]|]; unfold ret; intros [= <- <-]; done.
  - simpl. rewrite DeleteOne_run. simpl.
    match goal with |- context [failing ?x] => destruct (failing x) end; [discriminate |].
    destruct (list_find _ (noteCollection s)) as [[k d0]|]; unfold ret; intros [= <- <-]; done.
Qed.

(** X11: once [DeleteNote] has answered with a success, [GetNote]
    answers "does not exist" for that identifier, the identifiers of
    the notes being distinct. *)
Theorem DeleteNote_then_GetNote (c c' : Context) (s s1 : Service) (data : Data) :
  uniqueIds (noteCollection s) ->
  DeleteNote parseTime c s = (ResponseSuccess data, s1) ->
  ObjectIDFromHex (Param c' "noteid") =
    Some (Note_ID (ShouldBindJSON_Note parseTime (Body c) zeroNote).1) ->
  (GetNote c' s1).1 = doesNotExist (Param c' "noteid").
Proof.
  intros Hu Hdel Hhex. apply DeleteNote_success_notes in Hdel. cbv zeta in Hdel.
  set (id := Note_ID (ShouldBindJSON_Note parseTime (Body c) zeroNote).1) in *.
  assert (Hgone : list_find (Matches ("id", VOid id)) (noteCollection s1) = None).
  { apply unused_find_None.
    destruct (list_find _ (noteCollection s)) as [[k d0]|] eqn:Hfind.
    - destruct Hdel as [-> _]. by eapply unused_after_delete.
    - destruct Hdel as [-> _]. by apply unused_find_None. }
  rewrite (GetNote_run c' _ id Hhex), FindOne_run. simpl. rewrite Hgone.
  by destruct (failing s1).
Qed.

End Compositions.

(** X12: once [DeleteBook] has answered with a success, [GetBook]
    answers "does not exist" for the book and [GetNote] for each note
    that carried the book's identifier, identifiers being distinct. *)
Theorem DeleteBook_then_lookups (c c' : Context) (s s1 : Service) (data : Data) (oid : ObjectID) :
  ObjectIDFromHex (PostForm c "id") = Some oid ->
  DeleteBook c s = (ResponseSuccess data, s1) ->
  (uniqueIds (bookCollection s) -> ObjectIDFromHex (Param c' "bookid") = Some oid ->
   (GetBook c' s1).1 = doesNotExist (Param c' "bookid")) /\
  (forall nid dn,
     uniqueIds (noteCollection s) -> dn ∈ noteCollection s ->
     dn !! "id" = Some (VOid nid) -> dn !! "bookid" = Some (VOid oid) ->
     ObjectIDFromHex (Param c' "noteid") = Some nid ->
     (GetNote c' s1).1 = doesNotExist (Param c' "noteid")).
Proof.
  intros Hhex Hdel.
  destruct (DeleteBook_success c s s1 oid data Hhex Hdel) as (_ & Hnotes & Hbooks).
  split.
  - intros Hu Hhex'.
    assert (Hgone : list_find (Matches ("id", VOid oid)) (bookCollection s1) = None).
    { apply unused_find_None.
      destruct (list_find _ (bookCollection s)) as [[k d0]|] eqn:Hfind.
      - destruct Hbooks as [-> _]. by eapply unused_after_delete.
      - destruct Hbooks as [-> _]. by apply unused_find_None. }
    rewrite (GetBook_run c' _ oid Hhex'), FindOne_run. simpl. rewrite Hgone.
    by destruct (failing s1).
  - intros nid dn Hu Hdn Hid Hbook Hhex'.
    assert (Hgone : list_find (Matches ("id", VOid nid)) (noteCollection s1) = None).
    { apply unused_find_None. intros d Hd Hdid. rewrite Hnotes in Hd.
      apply list_elem_of_filter in Hd as [Hm Hd]. apply Hm.
      assert (d = dn) as -> by (eapply uniqueIds_elem_eq; [exact Hu | done | done | congruence]).
      exact Hbook. }
    rewrite (GetNote_run c' _ nid Hhex'), FindOne_run. simpl. rewrite Hgone.
    by destruct (failing s1).
Qed.

Lemma AddNote_then_GetNote_witness :
  let c := jsonBody (VObj [("bookID", VStr idB1); ("content", VStr "ch1")]) in
  let c' := mkContext {["noteid" := idN1]} ∅ ∅ None in
  (GetNote c' (AddNote noTime c N1 5 oneBook).2).1 = ResponseSuccess (DataNote ch1).
Proof.
  intros c c'.
  apply (AddNote_then_GetNote noTime c c' N1 5 oneBook _ (DataID N1)).
  - discriminate.
  - intros d Hd. by apply elem_of_nil in Hd.
  - vm_compute. reflexivity.
  - reflexivity.
  - reflexivity.
Defined.

Lemma DeleteNote_then_GetNote_witness :
  let c := jsonBody (VObj [("id", VStr idN1)]) in
  let c' := mkContext {["noteid" := idN1]} ∅ ∅ None in
  (GetNote c' (DeleteNote noTime c bookWithNote).2).1 = doesNotExist idN1.
Proof.
  intros c c'.
  apply (DeleteNote_then_GetNote noTime c c' bookWithNote _ (DataCount 1)).
  - apply NoDup_singleton.
  - vm_compute. reflexivity.
  - reflexivity.
Defined.

Lemma DeleteBook_then_lookups_witness :
  let c := mkContext ∅ ∅ {["id" := idB1]} None in
  let c' := mkContext {["bookid" := idB1; "noteid" := idN1]} ∅ ∅ None in
  (GetBook c' (DeleteBook c bookWithNote).2).1 = doesNotExist idB1 /\
  (GetNote c' (DeleteBook c bookWithNote).2).1 = doesNotExist idN1.
Proof.
  intros c c'.
  destruct (DeleteBook_then_lookups c c' bookWithNote (DeleteBook c bookWithNote).2
              (DataCount 1) B1 eq_refl) as [Hb Hn].
  { vm_compute. reflexivity. }
  split.
  - apply Hb; [apply NoDup_singleton | reflexivity].
  - apply (Hn N1 (noteDoc ch1)); try reflexivity; [apply NoDup_singleton |].
    by apply list_elem_of_singleton.
Defined.

(** *** When a store call fails *)

Section Failures.

Variable parseTime : string -> option Time.

(** X13: when the append of [AddNote] fails, because the driver fails
    the call or because the notes of the book are not a sequence, the
    handler answers with that error and stops: no collection has
    changed and the insertion is not issued. *)
Theorem AddNote_append_failure (c : Context) (newID : ObjectID) (now : Time) (s : Service) :
  let note := newNote parseTime c newID now in
  let push := CallUpdateOne BookColl ("id", VOid (BookID note)) (Push "notes" (VOid newID)) in
  let final := AddNote parseTime c newID now s in
  (failing s = true \/
   exists i b v, list_find (Matches ("id", VOid (BookID note))) (bookCollection s) = Some (i, b) /\
                 b !! "notes" = Some v /\ (forall vs, v <> VArr vs)) ->
  (final.1 = ResponseError (ErrDriver push) \/ final.1 = ResponseError (ErrWrite push)) /\
  bookCollection final.2 = bookCollection s /\
  noteCollection final.2 = noteCollection s /\
  trace final.2 = trace s ++ [push].
Proof.
  intros note push final H. unfold final, AddNote.
  change (newNote parseTime c newID now) with note. cbv zeta.
  assert (Hid : Note_ID note = newID) by reflexivity. rewrite Hid.
  fold push. clearbody note. unfold bind. rewrite UpdateOne_run. cbv zeta. fold push.
  destruct (failing s) eqn:Hf; [simpl; auto |].
  destruct H as [H | (i & b & v & Hfind & Hv & Hnot)]; [discriminate |].
  simpl. rewrite Hfind.
  assert (Hup : applyUpdate (Push "notes" (VOid newID)) b = None).
  { unfold applyUpdate. rewrite Hv. destruct v; try reflexivity. by destruct (Hnot vs). }
  rewrite Hup. simpl. auto.
Qed.

(** X14: when the driver fails the deletion of the notes, [DeleteBook]
    answers with that error and nothing has changed; when it fails the
    deletion of the book that follows, the answer is that error, the
    notes of the book are gone and the book is still there. *)
Theorem DeleteBook_failures (c : Context) (s : Service) (oid : ObjectID) :
  ObjectIDFromHex (PostForm c "id") = Some oid ->
  let many := CallDeleteMany NoteColl ("bookid", VOid oid) in
  let one := CallDeleteOne BookColl ("id", VOid oid) in
  let final := DeleteBook c s in
  (failing s = true ->
   final.1 = ResponseError (ErrDriver many) /\
   bookCollection final.2 = bookCollection s /\
   noteCollection final.2 = noteCollection s /\
   trace final.2 = trace s ++ [many]) /\
  (failing s = false -> failing (called many s) = true ->
   final.1 = ResponseError (ErrDriver one) /\
   bookCollection final.2 = bookCollection s /\
   noteCollection final.2 =
     filter (fun d => ~ Matches ("bookid", VOid oid) d) (noteCollection s) /\
   trace final.2 = trace s ++ [many; one]).
Proof.
  intros Hhex many one final. unfold final, DeleteBook. rewrite Hhex. unfold bind.
  rewrite DeleteMany_run. cbv zeta. fold many. split.
  - intros ->. simpl. auto.
  - intros -> Hf. simpl. rewrite DeleteOne_run. cbv zeta. fold one.
    match goal with
    | |- context [failing ?x] => replace (failing x) with true by (symmetry; exact Hf)
    end.
    simpl. rewrite <- app_assoc. auto.
Qed.

(** What a [DeleteNote] answered with an error has done. *)
Lemma DeleteNote_error_state c s s' err :
  DeleteNote parseTime c s = (ResponseError err, s') ->
  noteCollection s' = noteCollection s /\
  (bookCollection s' = bookCollection s \/
   exists j bk bk' v, bookCollection s !! j = Some bk /\
                      applyUpdate (Pull "notes" v) bk = Some bk' /\
                      bookCollection s' = <[j := bk']> (bookCollection s)).
Proof.
  unfold DeleteNote. cbv zeta. unfold bind. rewrite FindOne_run. cbv zeta.
  set (id := Note_ID (ShouldBindJSON_Note parseTime (Body c) zeroNote).1).
  generalize (BookID (Decode_Note
     (if failing s then Fail (ErrDriver (CallFindOne NoteColl ("id", VOid id)))
      else match list_find (Matches ("id", VOid id)) (coll NoteColl s) with
           | Some (_, d) => Ok d
           | None => Fail ErrNoDocuments
           end) zeroNote)).
  intros bookID. rewrite deleteNote_run. cbv zeta.
  set (s1 := called (CallFindOne NoteColl ("id", VOid id)) s).
  destruct (failing s1); [simpl; unfold ret; intros [= <- <-]; simpl; auto |].
  destruct (list_find _ (bookCollection s1)) as [[j bk]|] eqn:Hfind.
  - destruct (applyUpdate _ bk) as [bk'|] eqn:Hup;
      [| simpl; unfold ret; intros [= <- <-]; simpl; auto].
    simpl. rewrite DeleteOne_run. simpl.
    apply list_find_Some in Hfind as (Hj & _ & _).
    match goal with |- context [failing ?x] => destruct (failing x) end.
    + unfold ret. intros [= <- <-]. simpl. split; [done |]. right. by exists j, bk, bk', (VOid id).
    + destruct (list_find _ (noteCollection s)) as [[k d0]|]; unfold ret; discriminate.
  - simpl. rewrite DeleteOne_run. simpl.
    match goal with |- context [failing ?x] => destruct (failing x) end.
    + unfold ret. intros [= <- <-]. simpl. auto.
    + destruct (list_find _ (noteCollection s)) as [[k d0]|]; unfold ret; discriminate.
Qed.

Lemma pull_keeps_consistent (s s' : Service) j bk bk' v :
  consistent s ->
  bookCollection s !! j = Some bk -> applyUpdate (Pull "notes" v) bk = Some bk' ->
  bookCollection s' = <[j := bk']> (bookCollection s) ->
  noteCollection s' = noteCollection s ->
  consistent s'.
Proof.
  intros (Hint & Hub & Hun) Hj Hup Hbooks Hnotes. split; [| split].
  - intros b0 x Hb0 Hx. rewrite Hbooks in Hb0. rewrite Hnotes.
    apply elem_of_insert_inv in Hb0 as [-> | (j0 & _ & Hj0)].
    + destruct (Hint bk x) as (bid & nid & d & Hbid & ? & ? & ? & ?);
        [by eapply list_elem_of_lookup_2 | by eapply applyUpdate_Pull_subset |].
      exists bid, nid, d. repeat split; try done. by eapply applyUpdate_Pull_id.
    + apply Hint; [by eapply list_elem_of_lookup_2 | done].
  - rewrite Hbooks. eapply uniqueIds_insert; [done | exact Hj |].
    by eapply applyUpdate_Pull_id.
  - by rewrite Hnotes.
Qed.

(** X15: whatever [DeleteNote] answers, it leaves a consistent store
    consistent when the store has carried out its lookup: on its error
    paths no note is deleted, and a detachment that is not followed by
    the deletion only leaves a note that no book lists. *)
Theorem DeleteNote_keeps_consistent (c : Context) (s : Service) :
  consistent s -> failing s = false ->
  consistent (DeleteNote parseTime c s).2 /\
  (forall err, (DeleteNote parseTime c s).1 = ResponseError err ->
               noteCollection (DeleteNote parseTime c s).2 = noteCollection s).
Proof.
  intros Hc Hok. destruct (DeleteNote parseTime c s) as [[data | err] s'] eqn:Hrun; simpl.
  - split; [by eapply DeleteNote_consistent | discriminate].
  - destruct (DeleteNote_error_state c s s' err Hrun) as [Hnotes Hbooks]. split.
    + destruct Hbooks as [Hbooks | (j & bk & bk' & v & Hj & Hup & Hbooks)].
      * destruct Hc as (Hint & Hub & Hun). split; [| split]; [| by rewrite Hbooks | by rewrite Hnotes].
        intros b x Hb Hx. rewrite Hbooks in Hb. rewrite Hnotes. by apply Hint.
      * by eapply pull_keeps_consistent.
    + intros _ _. exact Hnotes.
Qed.

End Failures.

Lemma AddNote_append_failure_witness :
  let c := jsonBody (VObj [("bookID", VStr idB1)]) in
  let s := mkService [<["notes" := VStr "none"]> (bookDoc dune)] [] [] [] [] in
  (AddNote noTime c N1 5 s).1 =
    ResponseError (ErrWrite (CallUpdateOne BookColl ("id", VOid B1) (Push "notes" (VOid N1)))) /\
  noteCollection (AddNote noTime c N1 5 s).2 = [].
Proof.
  intros c s.
  destruct (AddNote_append_failure noTime c N1 5 s) as (H1 & _ & H2 & _).
  { right. exists 0%nat, (<["notes" := VStr "none"]> (bookDoc dune)), (VStr "none").
    split; [vm_compute; reflexivity |]. split; [reflexivity | discriminate]. }
  split; [| exact H2].
  destruct H1 as [H1 | H1]; [| exact H1].
  exfalso. vm_compute in H1. discriminate H1.
Defined.

Lemma DeleteBook_failures_witness :
  let c := mkContext ∅ ∅ {["id" := idB1]} None in
  let s := mkService (bookCollection bookWithNote) (noteCollection bookWithNote)
                     [false; true] [] [] in
  bookCollection (DeleteBook c s).2 = bookCollection bookWithNote /\
  noteCollection (DeleteBook c s).2 = [].
Proof.
  intros c s. destruct (DeleteBook_failures c s B1 eq_refl) as [_ H].
  destruct (H eq_refl eq_refl) as (_ & Hb & Hn & _).
  split; [exact Hb |]. rewrite Hn. vm_compute. reflexivity.
Defined.

Lemma DeleteNote_keeps_consistent_witness :
  consistent (DeleteNote noTime (jsonBody (VObj [("id", VStr idN1)]))
                (mkService (bookCollection bookWithNote) (noteCollection bookWithNote)
                           [false; false; true] [] [])).2.
Proof.
  apply DeleteNote_keeps_consistent; [apply consistent_bookWithNote | reflexivity].
Defined.

(** *** Listing the notes of a book *)

Lemma findNotes_cons noteID rest s :
  findNotes (noteID :: rest) s =
    (Decode_Note (FindOne NoteColl ("id", VOid noteID) s).1 zeroNote
       :: (findNotes rest (called (CallFindOne NoteColl ("id", VOid noteID)) s)).1,
     (findNotes rest (called (CallFindOne NoteColl ("id", VOid noteID)) s)).2).
Proof.
  simpl. unfold bind. rewrite FindOne_run. simpl.
  destruct (findNotes rest _) as [notes s']. reflexivity.
Qed.

Lemma findNotes_length noteIDs s : length (findNotes noteIDs s).1 = length noteIDs.
Proof.
  revert s. induction noteIDs as [| noteID rest IH]; intros s; [reflexivity |].
  rewrite findNotes_cons. simpl. by rewrite IH.
Qed.



Lemma findNotes_found noteIDs s k nid dn :
  faults s = [] -> uniqueIds (noteCollection s) ->
  noteIDs !! k = Some nid -> dn ∈ noteCollection s -> dn !! "id" = Some (VOid nid) ->
  (findNotes noteIDs s).1 !! k = Some (Decode_Note (Ok dn) zeroNote).
Proof.
  revert s k. induction noteIDs as [| noteID rest IH]; intros s k Hf Hu Hk Hdn Hid; [done |].
  rewrite findNotes_cons. destruct k as [| k]; simpl in *.
  - injection Hk as ->. rewrite FindOne_run. unfold failing. rewrite Hf. simpl.
    destruct (list_find _ _) as [[i d]|] eqn:Hfind.
    + apply list_find_Some in Hfind as (Hi & Hm & _). unfold Matches in Hm. simpl in Hm.
      assert (d = dn) as -> by (eapply uniqueIds_elem_eq;
        [exact Hu | by eapply list_elem_of_lookup_2 | done | congruence]).
      reflexivity.
    + apply list_find_None in Hfind. rewrite Forall_forall in Hfind.
      by destruct (Hfind dn Hdn).
  - apply IH; try done. simpl. by rewrite Hf.
Qed.

Lemma ListNoteByBook_run c s oid :
  ObjectIDFromHex (Query c "bookid") = Some oid ->
  ListNoteByBook c s =
    (let book := Decode_Book (FindOne BookColl ("id", VOid oid) s).1 zeroBook in
     let s1 := called (CallFindOne BookColl ("id", VOid oid)) s in
     if decide (Book_ID book = NilObjectID) then (doesNotExist (Query c "bookid"), s1)
     else (ResponseSuccess (DataNotes (findNotes (Notes book) s1).1),
           (findNotes (Notes book) s1).2)).
Proof.
  intros H. unfold ListNoteByBook. rewrite H. unfold bind, getBook, bind.
  rewrite FindOne_run. simpl. unfold ret.
  destruct (decide _); [reflexivity |].
  destruct (findNotes _ _). reflexivity.
Qed.


Lemma mapM_asOid_Some (vs : list Value) :
  Forall (fun v => exists n, v = VOid n) vs ->
  exists l, mapM asOid vs = Some l /\ VOid <$> l = vs.
Proof.
  induction 1 as [| v vs [n ->] _ (l & Hl & Hvs)]; [by exists [] |].
  exists (n :: l). split; [simpl; by rewrite Hl | by rewrite fmap_cons, Hvs].
Qed.

(** X17: in a consistent store, and when the driver fails no call, every
    entry [ListNoteByBook] returns is a note of the book: it carries
    the identifier listed at its place and the identifier of the
    book. *)
Theorem ListNoteByBook_complete (c : Context) (s s' : Service) (notes : list Note) (oid : ObjectID) :
  consistent s -> faults s = [] ->
  ObjectIDFromHex (Query c "bookid") = Some oid ->
  ListNoteByBook c s = (ResponseSuccess (DataNotes notes), s') ->
  exists i d,
    list_find (Matches ("id", VOid oid)) (bookCollection s) = Some (i, d) /\
    VOid <$> (Note_ID <$> notes) = docNotes d /\
    Forall (fun n => BookID n = oid) notes.
Proof.
  intros (Hint & Hub & Hun) Hf Hhex.
  rewrite (ListNoteByBook_run c s oid Hhex), FindOne_run. cbv zeta. simpl fst.
  unfold failing. rewrite Hf. simpl hd. cbv iota.
  destruct (list_find _ _) as [[i d]|] eqn:Hfind; [| simpl; discriminate].
  destruct (decide _) as [Hnil | Hnil]; [discriminate |].
  intros [= <-] . exists i, d. split; [done |].
  apply list_find_Some in Hfind as (Hi & Hm & _). unfold Matches in Hm. simpl in Hm.
  assert (Hall : Forall (fun v => exists n, v = VOid n) (docNotes d)).
  { apply Forall_forall. intros v Hv.
    destruct (Hint d v) as (_ & nid & _ & _ & -> & _); [by eapply list_elem_of_lookup_2 | done |].
    eauto. }
  apply mapM_asOid_Some in Hall as (l & Hl & Hvs).
  assert (Hlisted : fieldOids d "notes" [] = l).
  { unfold fieldOids. unfold docNotes in Hl, Hvs.
    destruct (d !! "notes") as [[]|]; simpl in *;
      try (destruct l; [reflexivity | discriminate]).
    by rewrite Hl. }
  rewrite Hlisted.
  set (s1 := called (CallFindOne BookColl ("id", VOid oid)) s).
  assert (Hentry : forall k nid, l !! k = Some nid ->
            exists dn, dn ∈ noteCollection s /\ dn !! "id" = Some (VOid nid) /\
                       dn !! "bookid" = Some (VOid oid) /\
                       (findNotes l s1).1 !! k = Some (Decode_Note (Ok dn) zeroNote)).
  { intros k nid Hk.
    destruct (Hint d (VOid nid)) as (bid & nid' & dn & Hbid & [= <-] & Hdn & Hdid & Hdb);
      [by eapply list_elem_of_lookup_2 | |].
    { rewrite <- Hvs. apply list_elem_of_fmap. exists nid. split; [done |].
      by eapply list_elem_of_lookup_2. }
    assert (bid = oid) as -> by congruence.
    exists dn. do 3 (split; [done |]).
    apply findNotes_found with (nid := nid); try done. simpl. by rewrite Hf. }
  split.
  - rewrite <- Hvs. f_equal. apply list_eq. intros k.
    rewrite list_lookup_fmap. destruct (l !! k) as [nid|] eqn:Hk.
    + destruct (Hentry k nid Hk) as (dn & _ & Hid & _ & ->). simpl.
      f_equal. unfold Decode_Note. simpl. unfold fieldOid. by rewrite Hid.
    + rewrite lookup_ge_None_2; [done |]. rewrite findNotes_length.
      by apply lookup_ge_None_1.
  - apply Forall_forall. intros n Hn. apply list_elem_of_lookup in Hn as [k Hn].
    assert (Hlt : (k < length l)%nat).
    { rewrite <- (findNotes_length l s1). by eapply lookup_lt_Some. }
    apply lookup_lt_is_Some_2 in Hlt as [nid Hk].
    destruct (Hentry k nid Hk) as (dn & _ & _ & Hb & Hk'). rewrite Hk' in Hn.
    injection Hn as <-. unfold Decode_Note. simpl. unfold fieldOid. by rewrite Hb.
Qed.


Lemma ListNoteByBook_complete_witness :
  let c := mkContext ∅ {["bookid" := idB1]} ∅ None in
  exists i d,
    list_find (Matches ("id", VOid B1)) (bookCollection bookWithNote) = Some (i, d) /\
    VOid <$> (Note_ID <$> [ch1]) = docNotes d /\
    Forall (fun n => BookID n = B1) [ch1].
Proof.
  intros c.
  apply (ListNoteByBook_complete c bookWithNote (ListNoteByBook c bookWithNote).2 [ch1] B1).
  - apply consistent_bookWithNote.
  - reflexivity.
  - reflexivity.
  - vm_compute. reflexivity.
Defined.

(** *** Edits and identifiers *)

Lemma ids_insert (l : list Doc) i d d' :
  l !! i = Some d -> d' !! "id" = d !! "id" -> ids (<[i := d']> l) = ids l.
Proof.
  unfold ids. intros Hi Hid. rewrite list_fmap_insert, Hid.
  apply list_insert_id. by rewrite list_lookup_fmap, Hi.
Qed.

Ltac steps :=
  repeat (first [ rewrite FindOne_run | rewrite InsertOne_run | rewrite UpdateOne_run
                | rewrite FindOneAndUpdate_run | rewrite DeleteOne_run
                | rewrite DeleteMany_run | rewrite deleteNote_run ]; cases).

(** X18: an edit never adds or removes a document and never changes an
    identifier: after [EditBook] and after [EditNote], whatever the
    answer, each collection holds the same identifiers at the same
    places, and the collection of the other kind is untouched. *)
Theorem edits_keep_identifiers (c : Context) (s : Service) :
  ids (bookCollection (EditBook c s).2) = ids (bookCollection s) /\
  noteCollection (EditBook c s).2 = noteCollection s /\
  ids (noteCollection (EditNote c s).2) = ids (noteCollection s) /\
  bookCollection (EditNote c s).2 = bookCollection s.
Proof.
  assert (Hset : forall oid (l : list Doc) i d,
            strIdToPrimitive (default VNil (boundFields c !! "id")) = Ok oid ->
            list_find (Matches ("id", VOid oid)) l = Some (i, d) ->
            ids (<[i := setFields (updateFields (<["id" := VOid oid]> (boundFields c))) d]> l)
              = ids l).
  { intros oid l i d Hid Hfind. apply list_find_Some in Hfind as (Hi & Hm & _).
    eapply ids_insert; [exact Hi |]. by destruct (edited_setFields _ _ _ Hid Hm) as [? _]. }
  unfold EditBook, EditNote. fold (boundFields c).
  destruct (strIdToPrimitive _) as [oid|] eqn:Hid; [| done].
  unfold bind. rewrite FindOneAndUpdate_run, UpdateOne_run. cbv zeta.
  destruct (failing s); [done |]. unfold applyUpdate.
  fold (setFields (updateFields (<["id" := VOid oid]> (boundFields c)))).
  split; [| split; [| split]].
  - destruct (list_find _ (coll BookColl s)) as [[i d]|] eqn:Hfind; [| done].
    simpl. by apply Hset.
  - by destruct (list_find _ (coll BookColl s)) as [[i d]|].
  - destruct (list_find _ (coll NoteColl s)) as [[i d]|] eqn:Hfind; [| done].
    simpl. by apply Hset.
  - by destruct (list_find _ (coll NoteColl s)) as [[i d]|].
Qed.

(** *** The number of store calls *)

Section Calls.

Variable parseTime : string -> option Time.

(** X19: no handler repeats a store call.  A lookup, an edit and a book
    creation make at most one call, a book deletion at most two, a note
    creation between one and three (the third is the compensation), a
    note deletion two or three. *)
Theorem no_retries (c : Context) (s : Service) (newID : ObjectID) (now : Time) :
  (calls s (GetBook c s).2 <= 1)%nat /\
  (calls s (GetNote c s).2 <= 1)%nat /\
  (calls s (AddBook parseTime c newID s).2 = 1)%nat /\
  (calls s (DeleteBook c s).2 <= 2)%nat /\
  (calls s (EditBook c s).2 <= 1)%nat /\
  (calls s (EditNote c s).2 <= 1)%nat /\
  (1 <= calls s (AddNote parseTime c newID now s).2 <= 3)%nat /\
  (2 <= calls s (DeleteNote parseTime c s).2 <= 3)%nat.
Proof.
  unfold calls.
  split; [| split; [| split; [| split; [| split; [| split; [| split]]]]]].
  - unfold GetBook. destruct (ObjectIDFromHex _); simpl; [| lia].
    unfold bind. steps; repeat case_decide; simpl; rewrite ?length_app; simpl; lia.
  - unfold GetNote. destruct (ObjectIDFromHex _); simpl; [| lia].
    unfold bind. steps; repeat case_decide; simpl; rewrite ?length_app; simpl; lia.
  - rewrite AddBook_run. cbv zeta. destruct (failing s); simpl; rewrite ?length_app; simpl; lia.
  - unfold DeleteBook. destruct (ObjectIDFromHex _); simpl; [| lia].
    unfold bind. steps; rewrite ?length_app; simpl; lia.
  - unfold EditBook. destruct (strIdToPrimitive _); simpl; [| lia].
    unfold bind. steps; try destruct e; simpl; rewrite ?length_app; simpl; lia.
  - unfold EditNote. destruct (strIdToPrimitive _); simpl; [| lia].
    unfold bind. steps; rewrite ?length_app; simpl; lia.
  - unfold AddNote. cbv zeta. unfold bind. steps; rewrite ?length_app; simpl; lia.
  - unfold DeleteNote. cbv zeta. unfold bind. steps; rewrite ?length_app; simpl; lia.
Qed.

End Calls.
